(** * StatusLine.py: an i3bar status line, embedded and verified

    The program under study is [Snippets/StatusLine.py]: six blocks (CPU load,
    RAM, disk, volume, network, date and time) kept in an ordered registry,
    rendered as one JSON line on every change, with click events read from
    standard input and one real-time signal broadcast to the blocks.

    The embedding is shallow.  Python strings are lists of code points,
    Python values are an inductive type, a [dict] is an association list that
    keeps insertion order, and a method is a computation in a state and
    exception monad over the registry and the trace of external actions.
    The operating system (commands, files, clock) is an oracle [Env]; the
    asyncio loop is a transition function over events. *)

From Stdlib Require Import List String Ascii NArith ZArith Bool Lia.
From Stdlib Require Import DecimalString HexadecimalString DecimalN.
Import ListNotations.

Set Warnings "-register-all".

Local Open Scope N_scope.
Local Open Scope list_scope.

(* ================================================================= *)
(** ** Python strings *)

(** A [str] is a sequence of Unicode code points. *)
Definition pystr := list N.

(** An ASCII literal of the source. *)
Definition py (s : string) : pystr := map N_of_ascii (list_ascii_of_string s).

(** The same, with every apostrophe read as a double quote, so that JSON
    text can be written down: [js "{'a': 1}"] is the text [{"a": 1}]. *)
Definition js (s : string) : pystr :=
  map (fun c => if c =? 0x27 then 0x22 else c) (py s).

Fixpoint str_eqb (a b : pystr) : bool :=
  match a, b with
  | [], [] => true
  | x :: a', y :: b' => (x =? y) && str_eqb a' b'
  | _, _ => false
  end.

(** [s.startswith(p)] *)
Fixpoint startswith (p s : pystr) : bool :=
  match p, s with
  | [], _ => true
  | x :: p', y :: s' => (x =? y) && startswith p' s'
  | _ :: _, [] => false
  end.

(** [s.lstrip(chars)]: drops the leading code points that occur in [chars]. *)
Fixpoint lstrip (chars s : pystr) : pystr :=
  match s with
  | [] => []
  | c :: s' => if existsb (N.eqb c) chars then lstrip chars s' else s
  end.

(** Line boundaries of [str.splitlines]. *)
Definition is_linebreak (c : N) : bool :=
  existsb (N.eqb c)
    [0x0a; 0x0b; 0x0c; 0x0d; 0x1c; 0x1d; 0x1e; 0x85; 0x2028; 0x2029].

(** Code points for which [str.isspace] holds; [str.split()] splits on
    runs of them. *)
Definition isspace (c : N) : bool :=
  ((0x09 <=? c) && (c <=? 0x0d)) || ((0x1c <=? c) && (c <=? 0x20))
  || existsb (N.eqb c) [0x85; 0xa0; 0x1680; 0x2028; 0x2029; 0x202f; 0x205f; 0x3000]
  || ((0x2000 <=? c) && (c <=? 0x200a)).

(** [s.splitlines()]; [cur] is the line being read, reversed.  A carriage
    return followed by a line feed is one boundary, and a final boundary
    opens no empty last line. *)
Fixpoint splitlines_from (cur s : pystr) : list pystr :=
  match s with
  | [] => match cur with [] => [] | _ => [rev cur] end
  | c :: rest =>
      if c =? 0x0d then
        match rest with
        | d :: rest' =>
            if d =? 0x0a then rev cur :: splitlines_from [] rest'
            else rev cur :: splitlines_from [] rest
        | [] => rev cur :: splitlines_from [] rest
        end
      else if is_linebreak c then rev cur :: splitlines_from [] rest
      else splitlines_from (c :: cur) rest
  end.

Definition splitlines (s : pystr) : list pystr := splitlines_from [] s.

(** [s.split()]: the maximal runs of non-space code points. *)
Fixpoint split_from (cur s : pystr) : list pystr :=
  match s with
  | [] => match cur with [] => [] | _ => [rev cur] end
  | c :: rest =>
      if isspace c then
        match cur with
        | [] => split_from [] rest
        | _ => rev cur :: split_from [] rest
        end
      else split_from (c :: cur) rest
  end.

Definition split (s : pystr) : list pystr := split_from [] s.

(** [s.split(sep)] for a separator of one code point: empty fields are
    kept, and the result is never empty. *)
Fixpoint split_sep_from (sep : N) (cur s : pystr) : list pystr :=
  match s with
  | [] => [rev cur]
  | c :: rest =>
      if c =? sep then rev cur :: split_sep_from sep [] rest
      else split_sep_from sep (c :: cur) rest
  end.

Definition split_sep (sep : N) (s : pystr) : list pystr :=
  split_sep_from sep [] s.

(** [sep.join(parts)] *)
Fixpoint join (sep : pystr) (parts : list pystr) : pystr :=
  match parts with
  | [] => []
  | [p] => p
  | p :: rest => p ++ sep ++ join sep rest
  end.

(** [str(n)] for an integer. *)
Definition str_of_N (n : N) : pystr :=
  py (DecimalString.NilEmpty.string_of_uint (N.to_uint n)).

Definition str_of_Z (z : Z) : pystr :=
  match z with
  | Zneg p => py "-" ++ str_of_N (Npos p)
  | _ => str_of_N (Z.to_N z)
  end.

(** [format(n, '02d')] and [format(n, '04d')] for a natural number. *)
Definition zfill (width : nat) (s : pystr) : pystr :=
  repeat 0x30 (width - List.length s) ++ s.

(** [format(n, '04x')] *)
Definition hex4 (n : N) : pystr :=
  zfill 4 (py (HexadecimalString.NilEmpty.string_of_uint (N.to_hex_uint n))).

(* ================================================================= *)
(** ** Python values and [json.dumps] *)

(** The values a block payload or a decoded click event holds.  Floats are
    left out: no payload of this program holds one. *)
Inductive pyval : Type :=
| VNone
| VBool (b : bool)
| VInt (z : Z)
| VStr (s : pystr)
| VList (l : list pyval)
| VDict (d : list (pystr * pyval)).

(** A [dict] keyed by strings, in insertion order: the payload of a block,
    a decoded JSON object, keyword arguments. *)
Definition dict := list (pystr * pyval).

(** [json.encoder.py_encode_basestring_ascii] on one code point: the named
    escapes, the printable ASCII range as it is, everything else as
    [\uXXXX], beyond the basic plane as a surrogate pair. *)
Definition escape_char (c : N) : pystr :=
  if c =? 0x5c then [0x5c; 0x5c]
  else if c =? 0x22 then [0x5c; 0x22]
  else if c =? 0x08 then py "\b"
  else if c =? 0x0c then py "\f"
  else if c =? 0x0a then py "\n"
  else if c =? 0x0d then py "\r"
  else if c =? 0x09 then py "\t"
  else if (0x20 <=? c) && (c <=? 0x7e) then [c]
  else if c <? 0x10000 then py "\u" ++ hex4 c
  else
    let n := c - 0x10000 in
    let s1 := N.lor 0xd800 (N.land (N.shiftr n 10) 0x3ff) in
    let s2 := N.lor 0xdc00 (N.land n 0x3ff) in
    py "\u" ++ hex4 s1 ++ py "\u" ++ hex4 s2.

Definition encode_basestring_ascii (s : pystr) : pystr :=
  [0x22] ++ flat_map escape_char s ++ [0x22].

(** [json.dumps(v)] with the default separators [', '] and [': '] and
    [ensure_ascii=True]. *)
Fixpoint dumps (v : pyval) : pystr :=
  match v with
  | VNone => py "null"
  | VBool true => py "true"
  | VBool false => py "false"
  | VInt z => str_of_Z z
  | VStr s => encode_basestring_ascii s
  | VList l => py "[" ++ join (py ", ") (map dumps l) ++ py "]"
  | VDict d =>
      py "{"
      ++ join (py ", ")
           (map (fun kv => encode_basestring_ascii (fst kv) ++ py ": " ++ dumps (snd kv)) d)
      ++ py "}"
  end.

(** [d[k]] read: the value bound to [k], if any. *)
Fixpoint dict_get {V : Type} (k : pystr) (d : list (pystr * V)) : option V :=
  match d with
  | [] => None
  | (k', v) :: d' => if str_eqb k k' then Some v else dict_get k d'
  end.

(** [d[k] = v]: a bound key keeps its place, a new key goes last. *)
Fixpoint dict_set {V : Type} (k : pystr) (v : V) (d : list (pystr * V))
  : list (pystr * V) :=
  match d with
  | [] => [(k, v)]
  | (k', v') :: d' =>
      if str_eqb k k' then (k', v) :: d' else (k', v') :: dict_set k v d'
  end.

(** [d.update(other)] *)
Definition dict_update (d other : dict) : dict :=
  fold_left (fun acc kv => dict_set (fst kv) (snd kv) acc) other d.


(* ================================================================= *)
(** ** The world outside the process *)

(** What [datetime.datetime.now()] returns. *)
Record DateTime : Type := {
  year : N; month : N; day : N; hour : N; minute : N; second : N
}.

(** What running a command comes to: it cannot be started
    ([subprocess.run] raises [OSError]), or it exits with a status and
    the text it wrote to its standard output. *)
Inductive run_result : Type :=
| NotStarted
| Completed (returncode : Z) (stdout : pystr).

(** The answers of the operating system at one moment: what each command
    prints, what each file holds ([None]: it cannot be read), the time. *)
Record Env : Type := {
  run : list pystr -> run_result;
  read_text : pystr -> option pystr;
  clock : DateTime
}.

(** The exceptions the program can meet. *)
Inductive exn : Type :=
| OSError
| CalledProcessError
| IndexError
| KeyError
| TypeError
| JSONDecodeError.

(* ================================================================= *)
(** ** Blocks, the registry and the process state *)

Inductive BlockClass : Type :=
| BCPU | BRAM | BDisk | BVolume | BNetwork | BDateTime.

(** [self.__class__.__name__] *)
Definition class_name (c : BlockClass) : pystr :=
  match c with
  | BCPU => py "BCPU"
  | BRAM => py "BRAM"
  | BDisk => py "BDisk"
  | BVolume => py "BVolume"
  | BNetwork => py "BNetwork"
  | BDateTime => py "BDateTime"
  end.

(** A block is a [dict] (its [items]) with a class and, for [BDateTime],
    the attribute [now].  Its attribute [statusline] is the one
    [StatusLine] of the process and is not stored. *)
Record Block : Type := {
  cls : BlockClass;
  items : dict;
  now : option DateTime
}.

(** What the process does that the outside can see, in order: the
    commands it runs and the lines it writes itself to standard output.
    The calls of [logging.debug] do nothing unless the process is started
    with [--debug] and are left out. *)
Inductive action : Type :=
| Spawn (argv : list pystr)
| Print (line : pystr).

(** The coroutines handed to [loop.create_task]. *)
Inductive coroutine : Type :=
| click_handler_task
| out_loop_task (c : BlockClass) (self : pystr).

(** A task runs until its coroutine returns or raises. *)
Inductive task_state : Type :=
| Running
| Finished
| Failed (e : exn).

(** The process: [blocks] is [StatusLine.blocks], keyed by instance id in
    insertion order; [tasks] and [signals] are what the asyncio loop
    holds; [trace] is what it has done so far.  A block object is
    addressed by its instance id, the key under which [add_block] stores
    it before its task is created. *)
Record State : Type := {
  blocks : list (pystr * Block);
  tasks : list (coroutine * task_state);
  signals : list Z;
  trace : list action
}.

Definition set_blocks (f : list (pystr * Block) -> list (pystr * Block))
  (st : State) : State :=
  {| blocks := f (blocks st); tasks := tasks st;
     signals := signals st; trace := trace st |}.

Definition set_tasks (f : list (coroutine * task_state) -> list (coroutine * task_state))
  (st : State) : State :=
  {| blocks := blocks st; tasks := f (tasks st);
     signals := signals st; trace := trace st |}.

Definition set_signals (f : list Z -> list Z) (st : State) : State :=
  {| blocks := blocks st; tasks := tasks st;
     signals := f (signals st); trace := trace st |}.

Definition log (a : action) (st : State) : State :=
  {| blocks := blocks st; tasks := tasks st;
     signals := signals st; trace := trace st ++ [a] |}.

(** The lines written to standard output. *)
Fixpoint stdout_of (t : list action) : list pystr :=
  match t with
  | [] => []
  | Print line :: t' => line :: stdout_of t'
  | Spawn _ :: t' => stdout_of t'
  end.

(** The commands run. *)
Fixpoint spawned_of (t : list action) : list (list pystr) :=
  match t with
  | [] => []
  | Spawn argv :: t' => argv :: spawned_of t'
  | Print _ :: t' => spawned_of t'
  end.

(** Applies [f] to the block stored under [self]. *)
Fixpoint update_block (self : pystr) (f : Block -> Block)
  (reg : list (pystr * Block)) : list (pystr * Block) :=
  match reg with
  | [] => []
  | (k, b) :: reg' =>
      if str_eqb self k then (k, f b) :: reg'
      else (k, b) :: update_block self f reg'
  end.

(* ================================================================= *)
(** ** Computations: state and exceptions *)

Inductive result (A : Type) : Type :=
| Ok (a : A)
| Raise (e : exn).
Arguments Ok {A} a.
Arguments Raise {A} e.

(** A computation runs on the process state and returns or raises; what it
    did before raising stays done. *)
Definition M (A : Type) : Type := State -> result A * State.

Definition ret {A : Type} (a : A) : M A := fun st => (Ok a, st).

Definition raise {A : Type} (e : exn) : M A := fun st => (Raise e, st).

Definition bind {A B : Type} (m : M A) (k : A -> M B) : M B :=
  fun st =>
    match m st with
    | (Ok a, st') => k a st'
    | (Raise e, st') => (Raise e, st')
    end.

Definition modify (f : State -> State) : M unit := fun st => (Ok tt, f st).

Declare Scope py_scope.
Delimit Scope py_scope with py.
Notation "x <- m ;; k" := (bind m (fun x => k))
  (at level 61, m at next level, right associativity) : py_scope.
Notation "m ;; k" := (bind m (fun _ => k))
  (at level 61, right associativity) : py_scope.
Local Open Scope py_scope.

(** [for x in l: f(x)] *)
Fixpoint for_each {A : Type} (l : list A) (f : A -> M unit) : M unit :=
  match l with
  | [] => ret tt
  | x :: l' => f x ;; for_each l' f
  end.

(** [l[i]] for [i >= 0] *)
Definition index {A : Type} (l : list A) (i : nat) : M A :=
  match nth_error l i with
  | Some x => ret x
  | None => raise IndexError
  end.

(** [d[k]] on a dict of the source. *)
Definition lookup {V : Type} (d : list (pystr * V)) (k : pystr) : M V :=
  match dict_get k d with
  | Some v => ret v
  | None => raise KeyError
  end.

(** [v[k]] for a string [k]: only a dict can be subscripted by a string. *)
Definition getitem (v : pyval) (k : pystr) : M pyval :=
  match v with
  | VDict d => lookup d k
  | _ => raise TypeError
  end.

(** [v == n] for an integer literal [n]; [True] is [1] and [False] is [0]. *)
Definition eq_int (v : pyval) (n : Z) : bool :=
  match v with
  | VInt z => (z =? n)%Z
  | VBool b => ((if b then 1 else 0) =? n)%Z
  | _ => false
  end.

(** The built-in [print(line)]. *)
Definition builtin_print (line : pystr) : M unit := modify (log (Print line)).

(** [self[k] = v] on the block [self]. *)
Definition setitem (self k : pystr) (v : pyval) : M unit :=
  modify (set_blocks (update_block self (fun b =>
    {| cls := cls b; items := dict_set k v (items b); now := now b |}))).

(** [self.now = t] *)
Definition set_now (self : pystr) (t : DateTime) : M unit :=
  modify (set_blocks (update_block self (fun b =>
    {| cls := cls b; items := items b; now := Some t |}))).

(* ================================================================= *)
(** ** The program *)

(** [Block.DEFAULTS] *)
Definition DEFAULTS : dict := [
  (py "full_text", VStr []);
  (py "border", VStr (py "#282828"));
  (py "border_top", VInt 0);
  (py "border_bottom", VInt 2);
  (py "border_left", VInt 0);
  (py "border_right", VInt 0);
  (py "min_width", VInt 50);
  (py "align", VStr (py "center"))
].

(** [Block.__init__]: the defaults, then the keyword arguments, then the
    name and the instance; [addr] is [id(self)]. *)
Definition Block_init (c : BlockClass) (kwargs : dict) (addr : N) : Block :=
  {| cls := c;
     items :=
       dict_set (py "instance") (VStr (str_of_N addr))
         (dict_set (py "name") (VStr (class_name c))
            (dict_update (dict_update [] DEFAULTS) kwargs));
     now := None |}.

(** [BNetwork.ICONS] *)
Definition BNetwork_ICONS : list (pystr * pystr) :=
  [(py "none", [0xf00d]); (py "limited", [0xf068]); (py "full", [0xf6ff])].

(** [BVolume.ICONS] *)
Definition BVolume_ICONS : list (pystr * pystr) :=
  [(py "false", [0xf028]); (py "true", [0xf6a9])].

(** [t.strftime(' %Y/%m/%d  %H:%M')] *)
Definition strftime (t : DateTime) : pystr :=
  [0xf073] ++ py " " ++ zfill 4 (str_of_N (year t)) ++ py "/"
  ++ zfill 2 (str_of_N (month t)) ++ py "/" ++ zfill 2 (str_of_N (day t))
  ++ py " " ++ [0xf017] ++ py " " ++ zfill 2 (str_of_N (hour t)) ++ py ":"
  ++ zfill 2 (str_of_N (minute t)).

(** [StatusLine.print]: a comma, a space and the blocks as a JSON array. *)
Definition print : M unit :=
  fun st =>
    builtin_print
      (py "," ++ py " "
       ++ dumps (VList (map (fun kb => VDict (items (snd kb))) (blocks st))))
      st.

Section Program.

(** The operating system as it answers during one activation. *)
Variable env : Env.

(** [subprocess.run(argv, check=check, text=True)], giving the captured
    output. *)
Definition subprocess_run (argv : list pystr) (check : bool) : M pystr :=
  match run env argv with
  | NotStarted => raise OSError
  | Completed returncode out =>
      modify (log (Spawn argv)) ;;
      if check && negb (returncode =? 0)%Z then raise CalledProcessError
      else ret out
  end.

(** [sh_out] on the arguments [args]; the source's default is
    [check=True], and [BVolume] passes [check=False]. *)
Definition sh_out (args : list pystr) (check : bool) : M pystr :=
  subprocess_run args check.

(** [Path(p).read_text()] *)
Definition Path_read_text (p : pystr) : M pystr :=
  match read_text env p with
  | Some s => ret s
  | None => raise OSError
  end.

Definition BDateTime_out_once (self : pystr) : M unit :=
  set_now self (clock env) ;;
  setitem self (py "full_text") (VStr (strftime (clock env))) ;;
  print.

Definition BDisk_out_once (self : pystr) : M unit :=
  out <- sh_out [py "df"; py "-h"; py "/"] true ;;
  line <- index (splitlines out) 1 ;;
  available <- index (split line) 3 ;;
  setitem self (py "full_text") (VStr ([0xf7c2] ++ py " " ++ available ++ py "iB")) ;;
  print.

Definition BRAM_out_once (self : pystr) : M unit :=
  out <- sh_out [py "free"; py "-h"] true ;;
  line <- index (splitlines out) 1 ;;
  available <- index (split line) 6 ;;
  setitem self (py "full_text") (VStr ([0xf538] ++ py " " ++ available ++ py "B")) ;;
  print.

Definition BCPU_out_once (self : pystr) : M unit :=
  text <- Path_read_text (py "/proc/loadavg") ;;
  load <- index (split text) 1 ;;
  setitem self (py "full_text") (VStr ([0xf2db] ++ py " " ++ load)) ;;
  print.

Definition BNetwork_out_once (self : pystr) : M unit :=
  general <- sh_out [py "nmcli"; py "--terse"; py "general"] true ;;
  connectivity <- index (split_sep 0x3a general) 1 ;;
  active <- sh_out [py "nmcli"; py "--terse"; py "connection"; py "show";
                    py "--active"] true ;;
  let connection := split_sep 0x3a active in
  field3 <- index connection 3 ;;
  let interface := removelast field3 in
  name <- index connection 0 ;;
  icon <- lookup BNetwork_ICONS connectivity ;;
  setitem self (py "full_text")
    (VStr (icon ++ py " " ++ interface ++ py " " ++ name)) ;;
  print.

Definition BVolume_out_once (self : pystr) : M unit :=
  pamixer <- sh_out [py "pamixer"; py "--get-mute"; py "--get-volume"] false ;;
  mute <- index (split pamixer) 0 ;;
  volume <- index (split pamixer) 1 ;;
  icon <- lookup BVolume_ICONS mute ;;
  setitem self (py "full_text") (VStr (icon ++ py " " ++ volume ++ py "%")) ;;
  print.

(** Method resolution of [self.out_once()]: every class overrides it. *)
Definition out_once (c : BlockClass) (self : pystr) : M unit :=
  match c with
  | BCPU => BCPU_out_once self
  | BRAM => BRAM_out_once self
  | BDisk => BDisk_out_once self
  | BVolume => BVolume_out_once self
  | BNetwork => BNetwork_out_once self
  | BDateTime => BDateTime_out_once self
  end.

(** [Block.on_click] *)
Definition Block_on_click (c : BlockClass) (self : pystr) (event : pyval)
  : M unit :=
  out_once c self.

Definition BNetwork_on_click (self : pystr) (event : pyval) : M unit :=
  button <- getitem event (py "button") ;;
  if eq_int button 1 then
    subprocess_run [py "nm-connection-editor"] false ;; ret tt
  else ret tt.

Definition BVolume_on_click (self : pystr) (event : pyval) : M unit :=
  (b1 <- getitem event (py "button") ;;
   if eq_int b1 1 then
     subprocess_run [py "pamixer"; py "--toggle-mute"] false ;; ret tt
   else
     b3 <- getitem event (py "button") ;;
     if eq_int b3 3 then
       subprocess_run [py "pavucontrol"] false ;; ret tt
     else
       b4 <- getitem event (py "button") ;;
       if eq_int b4 4 then
         subprocess_run [py "pamixer"; py "--increase"; py "5"] false ;; ret tt
       else
         b5 <- getitem event (py "button") ;;
         if eq_int b5 5 then
           subprocess_run [py "pamixer"; py "--decrease"; py "5"] false ;; ret tt
         else ret tt) ;;
  BVolume_out_once self.

(** Method resolution of [block.on_click(event)]. *)
Definition on_click (c : BlockClass) (self : pystr) (event : pyval) : M unit :=
  match c with
  | BNetwork => BNetwork_on_click self event
  | BVolume => BVolume_on_click self event
  | _ => Block_on_click c self event
  end.

(** [signal.SIGRTMIN], a constant of the platform. *)
Variable SIGRTMIN : Z.

(** [Block.on_signal] *)
Definition Block_on_signal (self : pystr) (sig : Z) : M unit := ret tt.

Definition BVolume_on_signal (self : pystr) (sig : Z) : M unit :=
  if (sig =? SIGRTMIN + 15)%Z then BVolume_out_once self else ret tt.

(** Method resolution of [block.on_signal(sig)]. *)
Definition on_signal (c : BlockClass) (self : pystr) (sig : Z) : M unit :=
  match c with
  | BVolume => BVolume_on_signal self sig
  | _ => Block_on_signal self sig
  end.

(** [StatusLine.signal_handler] *)
Definition signal_handler (sig : Z) : M unit :=
  fun st =>
    for_each (blocks st)
      (fun kb => on_signal (cls (snd kb)) (fst kb) sig) st.

(** [json.loads], the decoder of the standard library: [None] stands for
    a [JSONDecodeError]. *)
Variable loads : pystr -> option pyval.

Definition json_loads (s : pystr) : M pyval :=
  match loads s with
  | Some v => ret v
  | None => raise JSONDecodeError
  end.

(** [self.blocks[key]] for a decoded [key]: a list or a dict cannot be
    hashed, and nothing but a string is a key of the registry. *)
Definition blocks_getitem (key : pyval) : M (pystr * Block) :=
  match key with
  | VStr k => fun st => (b <- lookup (blocks st) k ;; ret (k, b)) st
  | VList _ | VDict _ => raise TypeError
  | _ => raise KeyError
  end.

(** The body of the loop of [StatusLine.click_handler], on one line read
    from standard input. *)
Definition click_handler_body (line : pystr) : M unit :=
  if startswith (py "[") line then ret tt
  else
    let line := lstrip (py ",") line in
    event <- json_loads line ;;
    instance <- getitem event (py "instance") ;;
    kb <- blocks_getitem instance ;;
    on_click (cls (snd kb)) (fst kb) event.

End Program.

(* ================================================================= *)
(** ** The engine: registration, start-up and the event loop *)

(** [loop.create_task(co)] *)
Definition create_task (co : coroutine) : M unit :=
  modify (set_tasks (fun ts => ts ++ [(co, Running)])).

(** [StatusLine.add_signal_handler] *)
Definition add_signal_handler (sig : Z) : M unit :=
  modify (set_signals (fun l => l ++ [sig])).

(** [StatusLine.add_block]: [addr] is the address at which the new block
    is allocated, so that [block['instance']] is [str(addr)].  The call
    [clsblock(statusline=self, **kwargs)] passes [statusline] by keyword,
    so keyword arguments that hold [statusline] as well raise [TypeError]
    before any block is built. *)
Definition add_block (c : BlockClass) (kwargs : dict) (addr : N) : M unit :=
  match dict_get (py "statusline") kwargs with
  | Some _ => raise TypeError
  | None =>
      let block := Block_init c kwargs addr in
      let instance := str_of_N addr in
      modify (set_blocks (dict_set instance block)) ;;
      create_task (out_loop_task c instance)
  end.

(** The state of a process that has done nothing yet. *)
Definition initial : State :=
  {| blocks := []; tasks := []; signals := []; trace := [] |}.

(** [l[i] = x] on the task list; out of range nothing changes, and the
    loop never addresses a task that is not there. *)
Fixpoint list_set {A : Type} (i : nat) (x : A) (l : list A) : list A :=
  match l, i with
  | [], _ => []
  | _ :: l', O => x :: l'
  | y :: l', S i' => y :: list_set i' x l'
  end.

(** Task [i] ends in state [s]. *)
Definition end_task (i : nat) (s : task_state) : State -> State :=
  set_tasks (fun ts =>
    match nth_error ts i with
    | Some (co, _) => list_set i (co, s) ts
    | None => ts
    end).

(** Task [i] runs [m] up to its next [await]: when [m] raises, the
    exception ends the task and the loop goes on. *)
Definition activate (i : nat) (m : M unit) (st : State) : State :=
  match m st with
  | (Ok _, st') => st'
  | (Raise e, st') => end_task i (Failed e) st'
  end.

(** What the loop is woken by. *)
Inductive Event : Type :=
| Readline (i : nat) (line : pystr)
    (* [sys.stdin.readline] gave [line] to task [i]; [''] at end of input *)
| Wake (i : nat)
    (* the sleep of task [i] is over, or [nmcli monitor] printed a line *)
| MonitorClosed (i : nat)
    (* [nmcli monitor] closed its output *)
| Signal (sig : Z).

Section Engine.

Variable SIGRTMIN : Z.
Variable loads : pystr -> option pyval.

(** [StatusLine.main] up to [run_forever]; [alloc c] is the address of
    the block of class [c]. *)
Definition main (alloc : BlockClass -> N) : M unit :=
  builtin_print
    (dumps (VDict [(py "version", VInt 1); (py "click_events", VBool true)])) ;;
  builtin_print (py "[") ;;
  builtin_print (py "[]") ;;
  create_task click_handler_task ;;
  add_signal_handler (SIGRTMIN + 15) ;;
  add_block BCPU [] (alloc BCPU) ;;
  add_block BRAM [] (alloc BRAM) ;;
  add_block BDisk [] (alloc BDisk) ;;
  add_block BVolume [] (alloc BVolume) ;;
  add_block BNetwork [] (alloc BNetwork) ;;
  add_block BDateTime [] (alloc BDateTime).

(** The first activation of a task: [click_handler] waits for a line,
    an [out_loop] calls [out_once] and then waits. *)
Definition start_task (env : Env) (i : nat) (co : coroutine)
  : State -> State :=
  match co with
  | click_handler_task => fun st => st
  | out_loop_task c self => activate i (out_once env c self)
  end.

(** The loop starts the tasks in the order of their creation. *)
Fixpoint start_tasks (env : Env) (i : nat)
  (ts : list (coroutine * task_state)) (st : State) : State :=
  match ts with
  | [] => st
  | (co, _) :: ts' => start_tasks env (S i) ts' (start_task env i co st)
  end.

(** The state in which the process first waits: [main] has run and every
    task has been started. *)
Definition startup (alloc : BlockClass -> N) (env : Env) : State :=
  let st := snd (main alloc initial) in
  start_tasks env 0 (tasks st) st.

(** One turn of the loop.  A signal for which no handler is registered
    ends the real process; such a delivery is outside the model, which
    leaves the state as it is. *)
Definition step (env : Env) (ev : Event) (st : State) : State :=
  match ev with
  | Readline i line =>
      match nth_error (tasks st) i with
      | Some (click_handler_task, Running) =>
          match line with
          | [] => end_task i Finished st
          | _ => activate i (click_handler_body env loads line) st
          end
      | _ => st
      end
  | Wake i =>
      match nth_error (tasks st) i with
      | Some (out_loop_task c self, Running) => activate i (out_once env c self) st
      | _ => st
      end
  | MonitorClosed i =>
      match nth_error (tasks st) i with
      | Some (out_loop_task BNetwork _, Running) => end_task i Finished st
      | _ => st
      end
  | Signal sig =>
      if existsb (Z.eqb sig) (signals st)
      then snd (signal_handler env SIGRTMIN sig st)
      else st
  end.

(** [loop.run_forever()] over the events that arrive, each with the
    answers of the operating system at that moment. *)
Definition run_forever (events : list (Env * Event)) (st : State) : State :=
  fold_left (fun s ee => step (fst ee) (snd ee) s) events st.

(** The process after start-up and the given events. *)
Definition process (alloc : BlockClass -> N) (env0 : Env)
  (events : list (Env * Event)) : State :=
  run_forever events (startup alloc env0).

End Engine.

(* ================================================================= *)
(** ** Concrete surroundings for running the model *)

(** A decoder for the lines i3bar sends: one JSON object whose values are
    strings without escapes, integers, [true], [false] or [null].  On these
    lines it agrees with [json.loads]; it is used to run the router on
    concrete input, and every theorem below holds for any decoder. *)
Definition skip_ws (s : pystr) : pystr := lstrip [0x20; 0x09; 0x0a; 0x0d] s.

(** The text of a string up to its closing quote, and what follows. *)
Fixpoint scan_string (acc s : pystr) : option (pystr * pystr) :=
  match s with
  | [] => None
  | c :: s' =>
      if c =? 0x22 then Some (rev acc, s')
      else if (c =? 0x5c) || (c <? 0x20) then None
      else scan_string (c :: acc) s'
  end.

Definition is_digit (c : N) : bool := (0x30 <=? c) && (c <=? 0x39).

Fixpoint scan_digits (acc : Z) (s : pystr) : Z * pystr :=
  match s with
  | c :: s' =>
      if is_digit c then scan_digits (10 * acc + Z.of_N (c - 0x30))%Z s'
      else (acc, s)
  | [] => (acc, s)
  end.

(** A natural number without a leading zero, not followed by a fraction
    or an exponent. *)
Definition scan_nat (s : pystr) : option (Z * pystr) :=
  match s with
  | c :: s' =>
      if is_digit c then
        let (z, rest) := if c =? 0x30 then (0%Z, s') else scan_digits 0%Z s in
        match rest with
        | d :: _ =>
            if is_digit d || existsb (N.eqb d) [0x2e; 0x65; 0x45] then None
            else Some (z, rest)
        | [] => Some (z, rest)
        end
      else None
  | [] => None
  end.

Definition scan_value (s : pystr) : option (pyval * pystr) :=
  match s with
  | [] => None
  | c :: s' =>
      if c =? 0x22 then
        match scan_string [] s' with
        | Some (text, rest) => Some (VStr text, rest)
        | None => None
        end
      else if c =? 0x2d then
        match scan_nat s' with
        | Some (z, rest) => Some (VInt (- z), rest)
        | None => None
        end
      else if startswith (py "true") s then Some (VBool true, skipn 4 s)
      else if startswith (py "false") s then Some (VBool false, skipn 5 s)
      else if startswith (py "null") s then Some (VNone, skipn 4 s)
      else
        match scan_nat s with
        | Some (z, rest) => Some (VInt z, rest)
        | None => None
        end
  end.

(** The members of an object, from the opening quote of a key. *)
Fixpoint scan_members (fuel : nat) (acc : dict) (s : pystr)
  : option (dict * pystr) :=
  match fuel, s with
  | S fuel', c :: s1 =>
      if c =? 0x22 then
        match scan_string [] s1 with
        | Some (k, s2) =>
            match skip_ws s2 with
            | colon :: s3 =>
                if colon =? 0x3a then
                  match scan_value (skip_ws s3) with
                  | Some (v, s4) =>
                      match skip_ws s4 with
                      | d :: s5 =>
                          if d =? 0x2c then
                            scan_members fuel' (dict_set k v acc) (skip_ws s5)
                          else if d =? 0x7d then Some (dict_set k v acc, s5)
                          else None
                      | [] => None
                      end
                  | None => None
                  end
                else None
            | [] => None
            end
        | None => None
        end
      else None
  | _, _ => None
  end.

Definition loads_simple (s : pystr) : option pyval :=
  match skip_ws s with
  | c :: s1 =>
      if c =? 0x7b then
        match skip_ws s1 with
        | d :: s2 =>
            let members :=
              if d =? 0x7d then Some ([], s2)
              else scan_members (List.length s1) [] (d :: s2) in
            match members with
            | Some (obj, rest) =>
                match skip_ws rest with
                | [] => Some (VDict obj)
                | _ => None
                end
            | None => None
            end
        | [] => None
        end
      else None
  | [] => None
  end.

Fixpoint argv_eqb (a b : list pystr) : bool :=
  match a, b with
  | [], [] => true
  | x :: a', y :: b' => str_eqb x y && argv_eqb a' b'
  | _, _ => false
  end.

(** A machine on which every data source answers. *)
Definition env_up : Env :=
  {| run := fun argv =>
       if argv_eqb argv [py "df"; py "-h"; py "/"] then
         Completed 0
           (py "Filesystem      Size  Used Avail Use% Mounted on" ++ [0x0a]
            ++ py "/dev/sda2       234G  171G   52G  77% /" ++ [0x0a])
       else if argv_eqb argv [py "free"; py "-h"] then
         Completed 0
           (py "       total   used   free   shared  buff/cache   available"
            ++ [0x0a]
            ++ py "Mem:    15Gi  4.1Gi  7.9Gi    312Mi       3.4Gi        10Gi"
            ++ [0x0a] ++ py "Swap:     0B     0B     0B" ++ [0x0a])
       else if argv_eqb argv [py "nmcli"; py "--terse"; py "general"] then
         Completed 0
           (py "connected:full:enabled:enabled:enabled:enabled" ++ [0x0a])
       else if argv_eqb argv [py "nmcli"; py "--terse"; py "connection";
                              py "show"; py "--active"] then
         Completed 0 (py "Home:0a1b:802-11-wireless:wlan0" ++ [0x0a])
       else if argv_eqb argv [py "pamixer"; py "--get-mute"; py "--get-volume"]
       then Completed 0 (py "false 45" ++ [0x0a])
       else Completed 0 [];
     read_text := fun p =>
       if str_eqb p (py "/proc/loadavg")
       then Some (py "0.52 0.58 0.59 1/977 12345" ++ [0x0a])
       else None;
     clock := {| year := 2024; month := 3; day := 9;
                 hour := 7; minute := 5; second := 42 |} |}.

(** The same machine with the sound server gone: [pamixer] exits with
    status 1 and prints nothing, [df] fails. *)
Definition env_down : Env :=
  {| run := fun argv =>
       if argv_eqb argv [py "pamixer"; py "--get-mute"; py "--get-volume"]
       then Completed 1 []
       else if argv_eqb argv [py "df"; py "-h"; py "/"] then Completed 1 []
       else run env_up argv;
     read_text := read_text env_up;
     clock := clock env_up |}.

(** Addresses for the six blocks. *)
Definition alloc0 (c : BlockClass) : N :=
  match c with
  | BCPU => 140 | BRAM => 141 | BDisk => 142
  | BVolume => 143 | BNetwork => 144 | BDateTime => 145
  end.

(** The value of [signal.SIGRTMIN] on Linux with glibc. *)
Definition SIGRTMIN_linux : Z := 34.

(** The click on the volume block of the specification. *)
Definition volume_click : pystr :=
  js ",{'name':'BVolume','instance':'143','button':1}" ++ [0x0a].

(** A click on a block that is not registered. *)
Definition stale_click : pystr :=
  js ",{'name':'BVolume','instance':'999','button':1}" ++ [0x0a].

(** A click of the first button on the network block. *)
Definition network_click : pyval :=
  VDict [(py "name", VStr (py "BNetwork")); (py "instance", VStr (py "144"));
         (py "button", VInt 1)].

(* ================================================================= *)
(** ** Vocabulary of the specification *)

(** The order in which [main] registers the blocks. *)
Definition registration_order : list BlockClass :=
  [BCPU; BRAM; BDisk; BVolume; BNetwork; BDateTime].

(** The keys of a block payload, in the order [json.dumps] writes them. *)
Definition payload_keys : list pystr :=
  [py "full_text"; py "border"; py "border_top"; py "border_bottom";
   py "border_left"; py "border_right"; py "min_width"; py "align";
   py "name"; py "instance"].

(** The style fields and their defaults: [DEFAULTS] without the text. *)
Definition style_defaults : dict := tl DEFAULTS.

(** The three lines of the preamble. *)
Definition preamble : list pystr :=
  [js "{'version': 1, 'click_events': true}"; py "["; py "[]"].

(** A render line: a comma, a space, a JSON array. *)
Definition is_render (line : pystr) : Prop :=
  exists objs : list dict, line = py ", " ++ dumps (VList (map VDict objs)).

(** The line [print] writes for a registry. *)
Definition render (reg : list (pystr * Block)) : pystr :=
  py ", " ++ dumps (VList (map (fun kb => VDict (items (snd kb))) reg)).


(** The command [BVolume.on_click] runs for a button, if any. *)
Definition BVolume_command (button : pyval) : option (list pystr) :=
  if eq_int button 1 then Some [py "pamixer"; py "--toggle-mute"]
  else if eq_int button 3 then Some [py "pavucontrol"]
  else if eq_int button 4 then Some [py "pamixer"; py "--increase"; py "5"]
  else if eq_int button 5 then Some [py "pamixer"; py "--decrease"; py "5"]
  else None.

(** Several actions at once. *)
Definition log_all (acts : list action) (st : State) : State :=
  {| blocks := blocks st; tasks := tasks st;
     signals := signals st; trace := trace st ++ acts |}.

(** What [out_once] does to its block: a new text and, for [BDateTime],
    a new [now]. *)
Definition touch (text : pystr) (t : option DateTime) (b : Block) : Block :=
  {| cls := cls b;
     items := dict_set (py "full_text") (VStr text) (items b);
     now := match t with Some _ => t | None => now b end |}.

(** A computation that only consults the outside: whatever the state, it
    runs the same commands, prints nothing and gives the same result. *)
Definition reads {A : Type} (m : M A) : Prop :=
  exists acts r, stdout_of acts = [] /\ forall st, m st = (r, log_all acts st).

(** A computation that consults the outside and then, unless that raised,
    sets the text of [self] and prints the registry. *)
Definition updates (self : pystr) (m : M unit) : Prop :=
  exists acts (r : result (pystr * option DateTime)),
    stdout_of acts = [] /\
    forall st,
      m st =
      match r with
      | Ok (text, t) =>
          print (set_blocks (update_block self (touch text t)) (log_all acts st))
      | Raise e => (Raise e, log_all acts st)
      end.

(** Two entries of the registry that differ at most in the text. *)
Definition same_frame (kb kb' : pystr * Block) : Prop :=
  fst kb' = fst kb /\ cls (snd kb') = cls (snd kb) /\
  (items (snd kb') = items (snd kb) \/
   exists text, items (snd kb') = dict_set (py "full_text") (VStr text) (items (snd kb))).

(** What any activation may do to the process: change texts, end tasks,
    and append commands and render lines to the trace. *)
Definition evolves (st st' : State) : Prop :=
  Forall2 same_frame (blocks st) (blocks st') /\
  map fst (tasks st') = map fst (tasks st) /\
  signals st' = signals st /\
  exists acts, trace st' = trace st ++ acts /\ Forall is_render (stdout_of acts).

Definition safe {A : Type} (m : M A) : Prop :=
  forall st r st', m st = (r, st') -> evolves st st'.

(* ================================================================= *)
(** ** Further vocabulary: the rest of the program *)

(** The delay [BDateTime.out_loop] sleeps for after an update,
    [60 - self.now.second]; [None] when the block has no attribute [now]
    yet, where Python raises [AttributeError]. *)
Definition BDateTime_delay (self : pystr) (st : State) : option Z :=
  match dict_get self (blocks st) with
  | Some b =>
      match now b with
      | Some t => Some (60 - Z.of_N (second t))%Z
      | None => None
      end
  | None => None
  end.

(** A code point that stands for itself on a terminal line: printable
    ASCII. *)
Definition is_printable (c : N) : bool := (0x20 <=? c) && (c <=? 0x7e).

(** A line that renders a registry which differs from [reg0] in texts
    only. *)
Definition renders_from (reg0 : list (pystr * Block)) (line : pystr) : Prop :=
  exists reg, Forall2 same_frame reg0 reg /\ line = render reg.

(** As [evolves], with every line written a render of the whole
    registry. *)
Definition evolves_fully (st st' : State) : Prop :=
  Forall2 same_frame (blocks st) (blocks st') /\
  exists acts,
    trace st' = trace st ++ acts /\
    Forall (renders_from (blocks st)) (stdout_of acts).

(** A computation whose every run relates the state before to the state
    after by [R]. *)
Definition respects (R : State -> State -> Prop) {A : Type} (m : M A) : Prop :=
  forall st r st', m st = (r, st') -> R st st'.

(** The state a successful update leaves: the text of [self] set, the
    commands [acts] run, the registry printed. *)
Definition updated (self text : pystr) (t : option DateTime)
  (acts : list action) (st : State) : State :=
  let reg := update_block self (touch text t) (blocks st) in
  {| blocks := reg; tasks := tasks st; signals := signals st;
     trace := trace st ++ acts ++ [Print (render reg)] |}.

(** The tasks are left alone. *)
Definition same_tasks (st st' : State) : Prop := tasks st' = tasks st.

(** A computation that changes no block but [self]. *)
Definition only_touches {A : Type} (self : pystr) (m : M A) : Prop :=
  forall st r st' k,
    m st = (r, st') -> k <> self -> dict_get k (blocks st') = dict_get k (blocks st).

(** A machine on which no program can be started. *)
Definition env_absent : Env :=
  {| run := fun _ => NotStarted;
     read_text := read_text env_up;
     clock := clock env_up |}.

(** A machine that is offline: NetworkManager reports no connectivity and
    no active connection. *)
Definition env_offline : Env :=
  {| run := fun argv =>
       if argv_eqb argv [py "nmcli"; py "--terse"; py "general"] then
         Completed 0
           (py "disconnected:none:enabled:enabled:enabled:enabled" ++ [0x0a])
       else if argv_eqb argv [py "nmcli"; py "--terse"; py "connection";
                              py "show"; py "--active"] then
         Completed 0 []
       else run env_up argv;
     read_text := read_text env_up;
     clock := clock env_up |}.

(** The update loops that are still running. *)
Fixpoint running_loops (ts : list (coroutine * task_state)) : nat :=
  match ts with
  | [] => 0%nat
  | (out_loop_task _ _, Running) :: ts' => S (running_loops ts')
  | _ :: ts' => running_loops ts'
  end.

(** The router over the lines of its input, one turn of the loop each. *)
Definition readlines (SIGRTMIN : Z) (loads : pystr -> option pyval)
  (env : Env) (i : nat) (lines : list pystr) (st : State) : State :=
  fold_left (fun s line => step SIGRTMIN loads env (Readline i line) s) lines st.

(* ================================================================= *)
(** ** Strings and dicts *)

Example splitlines_ex :
  splitlines (py "a" ++ [0x0d; 0x0a] ++ py "b c" ++ [0x0a; 0x0a])
  = [py "a"; py "b c"; []].
Proof. reflexivity. Qed.

Example split_ex : split (py "  on  42 " ++ [0x0a]) = [py "on"; py "42"].
Proof. reflexivity. Qed.

Example split_sep_ex : split_sep 0x3a (py "a::b") = [py "a"; []; py "b"].
Proof. reflexivity. Qed.

Example dumps_ex :
  dumps (VDict [(py "version", VInt 1); (py "click_events", VBool true)])
  = js "{'version': 1, 'click_events': true}".
Proof. reflexivity. Qed.

Example dumps_icon_ex :
  dumps (VStr ([0xf073] ++ py " a" ++ [0x22; 0x1f600]))
  = js "'\uf073 a\'\ud83d\ude00'".
Proof. reflexivity. Qed.

Example Block_init_ex :
  dumps (VDict (items (Block_init BCPU [] 140)))
  = js "{'full_text': '', 'border': '#282828', 'border_top': 0, "
    ++ js "'border_bottom': 2, 'border_left': 0, 'border_right': 0, "
    ++ js "'min_width': 50, 'align': 'center', 'name': 'BCPU', "
    ++ js "'instance': '140'}".
Proof. reflexivity. Qed.

Example strftime_ex :
  strftime (clock env_up) = [0xf073] ++ py " 2024/03/09 " ++ [0xf017] ++ py " 07:05".
Proof. reflexivity. Qed.

Example loads_simple_ex :
  loads_simple (lstrip (py ",") volume_click)
  = Some (VDict [(py "name", VStr (py "BVolume"));
                 (py "instance", VStr (py "143")); (py "button", VInt 1)]).
Proof. reflexivity. Qed.

(** The scenario of the specification: a click of the first button on the
    volume block toggles the mute, reads the mixer again and writes one
    render line. *)
Example volume_click_ex :
  let st := startup SIGRTMIN_linux alloc0 env_up in
  let st' := step SIGRTMIN_linux loads_simple env_up (Readline 0 volume_click) st in
  spawned_of (trace st')
  = spawned_of (trace st)
    ++ [[py "pamixer"; py "--toggle-mute"];
        [py "pamixer"; py "--get-mute"; py "--get-volume"]]
  /\ stdout_of (trace st') = stdout_of (trace st) ++ [render (blocks st')]
  /\ tasks st' = tasks st.
Proof. vm_compute. repeat split. Qed.

Lemma str_eqb_refl (a : pystr) : str_eqb a a = true.
Proof.
  induction a as [|x a IH]; simpl; [reflexivity|].
  rewrite N.eqb_refl. exact IH.
Qed.

Lemma str_eqb_eq (a b : pystr) : str_eqb a b = true <-> a = b.
Proof.
  split.
  - revert b. induction a as [|x a IH]; intros [|y b] H; simpl in H;
      try discriminate; [reflexivity|].
    apply andb_true_iff in H. destruct H as [Hxy Hab].
    apply N.eqb_eq in Hxy. apply IH in Hab. congruence.
  - intros ->. apply str_eqb_refl.
Qed.

Lemma str_eqb_neq (a b : pystr) : a <> b -> str_eqb a b = false.
Proof.
  intros H. destruct (str_eqb a b) eqn:E; [|reflexivity].
  apply str_eqb_eq in E. contradiction.
Qed.

Lemma py_inj (s t : string) : py s = py t -> s = t.
Proof.
  unfold py. revert t.
  induction s as [|c s IH]; intros [|d t] H; simpl in H; try discriminate;
    [reflexivity|].
  injection H as Hc Hs.
  apply IH in Hs. subst t.
  assert (c = d) as ->.
  { rewrite <- (ascii_N_embedding c), <- (ascii_N_embedding d), Hc.
    reflexivity. }
  reflexivity.
Qed.

(** [str] is injective on addresses. *)
Lemma str_of_N_inj (a b : N) : str_of_N a = str_of_N b -> a = b.
Proof.
  unfold str_of_N. intros H. apply py_inj in H.
  apply Unsigned.to_uint_inj.
  assert (Some (N.to_uint a) = Some (N.to_uint b)) as E.
  { rewrite <- !DecimalString.NilEmpty.usu, H. reflexivity. }
  congruence.
Qed.

Lemma dict_get_set_same {V : Type} (k : pystr) (v : V) (d : list (pystr * V)) :
  dict_get k (dict_set k v d) = Some v.
Proof.
  induction d as [|[k' v'] d IH]; simpl.
  - rewrite str_eqb_refl. reflexivity.
  - destruct (str_eqb k k') eqn:E; simpl; rewrite E; [reflexivity|exact IH].
Qed.

Lemma dict_get_set_other {V : Type} (k k0 : pystr) (v : V) (d : list (pystr * V)) :
  k0 <> k -> dict_get k0 (dict_set k v d) = dict_get k0 d.
Proof.
  intros Hne. induction d as [|[k' v'] d IH]; simpl.
  - rewrite (str_eqb_neq _ _ Hne). reflexivity.
  - destruct (str_eqb k k') eqn:E; simpl.
    + apply str_eqb_eq in E. subst k'. rewrite (str_eqb_neq _ _ Hne).
      reflexivity.
    + destruct (str_eqb k0 k'); [reflexivity|exact IH].
Qed.

Lemma dict_set_set {V : Type} (k : pystr) (v w : V) (d : list (pystr * V)) :
  dict_set k v (dict_set k w d) = dict_set k v d.
Proof.
  induction d as [|[k' v'] d IH]; simpl.
  - rewrite str_eqb_refl. reflexivity.
  - destruct (str_eqb k k') eqn:E; simpl; rewrite E; [reflexivity|].
    rewrite IH. reflexivity.
Qed.

Lemma dict_set_keys {V : Type} (k : pystr) (v : V) (d : list (pystr * V)) :
  dict_get k d <> None -> map fst (dict_set k v d) = map fst d.
Proof.
  induction d as [|[k' v'] d IH]; simpl; intros H.
  - contradiction.
  - destruct (str_eqb k k') eqn:E; simpl; [reflexivity|].
    rewrite IH by exact H. reflexivity.
Qed.

Lemma dict_set_Forall {V : Type} (P : pystr * V -> Prop) (k : pystr) (v : V)
  (d : list (pystr * V)) :
  (forall k', P (k', v)) -> Forall P d -> Forall P (dict_set k v d).
Proof.
  intros Hv. induction 1 as [|[k' v'] d Hx Hd IH]; simpl.
  - constructor; [apply Hv|constructor].
  - destruct (str_eqb k k'); constructor; auto.
Qed.

(** A keyword argument overrides a default, and nothing else does. *)
Lemma dict_update_get (k : pystr) (other d : dict) :
  dict_get k (dict_update d other) =
  match dict_get k (dict_update [] other) with
  | Some v => Some v
  | None => dict_get k d
  end.
Proof.
  unfold dict_update. revert d.
  induction other as [|[k1 v1] other IH]; intros d; simpl; [reflexivity|].
  rewrite IH. rewrite (IH [(k1, v1)]).
  destruct (dict_get k (fold_left _ other [])); [reflexivity|].
  simpl. destruct (str_eqb k k1) eqn:E.
  - apply str_eqb_eq in E. subst k1. apply dict_get_set_same.
  - apply dict_get_set_other. intros ->. rewrite str_eqb_refl in E.
    discriminate.
Qed.

Lemma update_block_keys (self : pystr) (f : Block -> Block) reg :
  map fst (update_block self f reg) = map fst reg.
Proof.
  induction reg as [|[k b] reg IH]; simpl; [reflexivity|].
  destruct (str_eqb self k); simpl; [reflexivity|]. rewrite IH. reflexivity.
Qed.

Lemma update_block_ext (self : pystr) (f g : Block -> Block) reg :
  (forall b, f b = g b) -> update_block self f reg = update_block self g reg.
Proof.
  intros H. induction reg as [|[k b] reg IH]; simpl; [reflexivity|].
  rewrite H, IH. reflexivity.
Qed.

Lemma update_block_twice (self : pystr) (f g : Block -> Block) reg :
  update_block self g (update_block self f reg)
  = update_block self (fun b => g (f b)) reg.
Proof.
  induction reg as [|[k b] reg IH]; simpl; [reflexivity|].
  destruct (str_eqb self k) eqn:E; simpl; rewrite E; [reflexivity|].
  rewrite IH. reflexivity.
Qed.

Lemma touch_touch text t b : touch text t (touch text t b) = touch text t b.
Proof.
  unfold touch; simpl. rewrite dict_set_set. destruct t; reflexivity.
Qed.

Lemma update_block_frame (self text : pystr) t reg :
  Forall2 same_frame reg (update_block self (touch text t) reg).
Proof.
  induction reg as [|[k b] reg IH]; simpl; [constructor|].
  assert (Forall2 same_frame reg reg) as Hrefl.
  { clear. induction reg; constructor; auto.
    repeat split; auto. }
  destruct (str_eqb self k).
  - constructor; [|exact Hrefl].
    repeat split; simpl; auto. right. exists text. reflexivity.
  - constructor; [|exact IH]. repeat split; auto.
Qed.

(* ================================================================= *)
(** ** Computations that read, computations that update *)

Lemma log_all_nil st : log_all [] st = st.
Proof. destruct st; unfold log_all; simpl. rewrite app_nil_r. reflexivity. Qed.

Lemma log_all_app a b st : log_all b (log_all a st) = log_all (a ++ b) st.
Proof. unfold log_all; simpl. rewrite app_assoc. reflexivity. Qed.

Lemma stdout_of_app a b : stdout_of (a ++ b) = stdout_of a ++ stdout_of b.
Proof.
  induction a as [|[argv|line] a IH]; simpl; [reflexivity|exact IH|].
  rewrite IH. reflexivity.
Qed.

Lemma spawned_of_app a b : spawned_of (a ++ b) = spawned_of a ++ spawned_of b.
Proof.
  induction a as [|[argv|line] a IH]; simpl; [reflexivity| |exact IH].
  rewrite IH. reflexivity.
Qed.

Lemma reads_ret {A : Type} (a : A) : reads (ret a).
Proof.
  exists [], (Ok a). split; [reflexivity|].
  intros st. unfold ret. rewrite log_all_nil. reflexivity.
Qed.

Lemma reads_raise {A : Type} (e : exn) : reads (@raise A e).
Proof.
  exists [], (Raise e). split; [reflexivity|].
  intros st. unfold raise. rewrite log_all_nil. reflexivity.
Qed.

Lemma reads_bind {A B : Type} (m : M A) (k : A -> M B) :
  reads m -> (forall a, reads (k a)) -> reads (bind m k).
Proof.
  intros (acts & r & Hout & Hm) Hk. destruct r as [a|e].
  - destruct (Hk a) as (acts' & r' & Hout' & Hka).
    exists (acts ++ acts'), r'. split.
    + rewrite stdout_of_app, Hout, Hout'. reflexivity.
    + intros st. unfold bind. rewrite Hm, Hka, log_all_app. reflexivity.
  - exists acts, (Raise e). split; [exact Hout|].
    intros st. unfold bind. rewrite Hm. reflexivity.
Qed.

Lemma reads_index {A : Type} (l : list A) (i : nat) : reads (index l i).
Proof. unfold index. destruct (nth_error l i); [apply reads_ret|apply reads_raise]. Qed.

Lemma reads_lookup {V : Type} (d : list (pystr * V)) (k : pystr) : reads (lookup d k).
Proof. unfold lookup. destruct (dict_get k d); [apply reads_ret|apply reads_raise]. Qed.

Lemma reads_getitem (v : pyval) (k : pystr) : reads (getitem v k).
Proof.
  destruct v; simpl; try apply reads_raise. apply reads_lookup.
Qed.

Lemma reads_spawn (argv : list pystr) : reads (modify (log (Spawn argv))).
Proof.
  exists [Spawn argv], (Ok tt). split; reflexivity.
Qed.

Lemma reads_subprocess_run env argv check : reads (subprocess_run env argv check).
Proof.
  unfold subprocess_run. destruct (run env argv) as [|rc out].
  - apply reads_raise.
  - apply reads_bind; [apply reads_spawn|]. intros _.
    destruct (check && negb (rc =? 0)%Z); [apply reads_raise|apply reads_ret].
Qed.

Lemma reads_sh_out env args check : reads (sh_out env args check).
Proof. apply reads_subprocess_run. Qed.

Lemma reads_Path_read_text env p : reads (Path_read_text env p).
Proof.
  unfold Path_read_text. destruct (read_text env p);
    [apply reads_ret|apply reads_raise].
Qed.

Create HintDb reads.
#[local] Hint Resolve reads_ret reads_raise reads_index reads_lookup reads_getitem
  reads_subprocess_run reads_sh_out reads_Path_read_text : reads.

Lemma updates_bind {A : Type} (self : pystr) (m : M A) (k : A -> M unit) :
  reads m -> (forall a, updates self (k a)) -> updates self (bind m k).
Proof.
  intros (acts & r & Hout & Hm) Hk. destruct r as [a|e].
  - destruct (Hk a) as (acts' & r' & Hout' & Hka).
    exists (acts ++ acts'), r'. split.
    + rewrite stdout_of_app, Hout, Hout'. reflexivity.
    + intros st. unfold bind. rewrite Hm, Hka, log_all_app. reflexivity.
  - exists acts, (Raise e). split; [exact Hout|].
    intros st. unfold bind. rewrite Hm. reflexivity.
Qed.

Lemma updates_setitem_print (self text : pystr) :
  updates self (setitem self (py "full_text") (VStr text) ;; print).
Proof.
  exists [], (Ok (text, None)). split; [reflexivity|].
  intros st. rewrite log_all_nil. reflexivity.
Qed.

Lemma updates_BDateTime env self : updates self (BDateTime_out_once env self).
Proof.
  exists [], (Ok (strftime (clock env), Some (clock env))).
  split; [reflexivity|].
  intros st. rewrite log_all_nil.
  unfold BDateTime_out_once, bind, set_now, setitem, modify, set_blocks; simpl.
  rewrite update_block_twice. reflexivity.
Qed.

Ltac updates_chain :=
  repeat (apply updates_bind; [solve [auto with reads] | intros ?]);
  apply updates_setitem_print.

(** Every [out_once] reads its source and then sets the text of its own
    block and prints. *)
Lemma updates_out_once env c self : updates self (out_once env c self).
Proof.
  destruct c; simpl.
  - unfold BCPU_out_once. updates_chain.
  - unfold BRAM_out_once. updates_chain.
  - unfold BDisk_out_once. updates_chain.
  - unfold BVolume_out_once. updates_chain.
  - unfold BNetwork_out_once. updates_chain.
  - apply updates_BDateTime.
Qed.

Lemma reads_BNetwork_on_click env self event :
  reads (BNetwork_on_click env self event).
Proof.
  unfold BNetwork_on_click.
  apply reads_bind; [auto with reads|]. intros button.
  destruct (eq_int button 1); [|auto with reads].
  apply reads_bind; auto with reads.
Qed.

Lemma updates_BVolume_on_click env self event :
  updates self (BVolume_on_click env self event).
Proof.
  unfold BVolume_on_click.
  apply updates_bind; [|intros _; apply (updates_out_once env BVolume)].
  repeat (apply reads_bind; [auto with reads|]; intros ?;
          match goal with
          | |- reads (if ?b then _ else _) =>
              destruct b; [apply reads_bind; auto with reads|]
          end).
  auto with reads.
Qed.

(** What an updating computation does, written out. *)
Lemma updates_cases (self : pystr) (m : M unit) :
  updates self m ->
  exists acts (r : result (pystr * option DateTime)),
    stdout_of acts = [] /\
    forall st,
      match r with
      | Ok (text, t) =>
          let reg := update_block self (touch text t) (blocks st) in
          m st = (Ok tt,
                  {| blocks := reg; tasks := tasks st; signals := signals st;
                     trace := trace st ++ acts ++ [Print (render reg)] |})
      | Raise e => m st = (Raise e, log_all acts st)
      end.
Proof.
  intros (acts & r & Hout & Hm). exists acts, r. split; [exact Hout|].
  intros st. rewrite Hm. destruct r as [[text t]|e]; [|reflexivity].
  unfold print, builtin_print, modify, log, set_blocks, log_all, render; simpl.
  rewrite <- app_assoc. reflexivity.
Qed.

(* ================================================================= *)
(** ** What an activation may change *)

Lemma same_frame_refl kb : same_frame kb kb.
Proof. repeat split; auto. Qed.

Lemma same_frame_trans a b c : same_frame a b -> same_frame b c -> same_frame a c.
Proof.
  intros (Hk1 & Hc1 & Hi1) (Hk2 & Hc2 & Hi2).
  split; [congruence|]. split; [congruence|].
  destruct Hi2 as [E2|[t2 E2]]; rewrite E2; destruct Hi1 as [E1|[t1 E1]];
    rewrite E1.
  - left; reflexivity.
  - right; exists t1; reflexivity.
  - right; exists t2; reflexivity.
  - right; exists t2. apply dict_set_set.
Qed.

Lemma frame_refl reg : Forall2 same_frame reg reg.
Proof. induction reg; constructor; auto using same_frame_refl. Qed.

Lemma frame_trans r1 r2 r3 :
  Forall2 same_frame r1 r2 -> Forall2 same_frame r2 r3 -> Forall2 same_frame r1 r3.
Proof.
  intros H. revert r3. induction H as [|a b r1 r2 Hab H IH]; intros r3 H3;
    inversion H3; subst; constructor.
  - eapply same_frame_trans; eauto.
  - apply IH. assumption.
Qed.

Lemma evolves_refl st : evolves st st.
Proof.
  split; [apply frame_refl|]. split; [reflexivity|]. split; [reflexivity|].
  exists []. split; [symmetry; apply app_nil_r|constructor].
Qed.

Lemma evolves_trans st1 st2 st3 : evolves st1 st2 -> evolves st2 st3 -> evolves st1 st3.
Proof.
  intros (Hb1 & Ht1 & Hs1 & a1 & Ha1 & Hr1) (Hb2 & Ht2 & Hs2 & a2 & Ha2 & Hr2).
  split; [eapply frame_trans; eauto|]. split; [congruence|].
  split; [congruence|].
  exists (a1 ++ a2). split.
  - rewrite Ha2, Ha1, app_assoc. reflexivity.
  - rewrite stdout_of_app. apply Forall_app. auto.
Qed.

Lemma render_is_render reg : is_render (render reg).
Proof.
  exists (map (fun kb => items (snd kb)) reg). unfold render.
  rewrite map_map. reflexivity.
Qed.

Lemma safe_ret {A : Type} (a : A) : safe (ret a).
Proof. intros st r st' H. injection H as _ <-. apply evolves_refl. Qed.

Lemma safe_raise {A : Type} (e : exn) : safe (@raise A e).
Proof. intros st r st' H. injection H as _ <-. apply evolves_refl. Qed.

Lemma safe_bind {A B : Type} (m : M A) (k : A -> M B) :
  safe m -> (forall a, safe (k a)) -> safe (bind m k).
Proof.
  intros Hm Hk st r st' H. unfold bind in H.
  destruct (m st) as [[a|e] st1] eqn:E.
  - eapply evolves_trans; [eapply Hm; eauto|eapply Hk; eauto].
  - injection H as _ <-. eapply Hm; eauto.
Qed.

Lemma log_all_evolves acts st : stdout_of acts = [] -> evolves st (log_all acts st).
Proof.
  intros Hout. split; [apply frame_refl|]. split; [reflexivity|].
  split; [reflexivity|]. exists acts. split; [reflexivity|].
  rewrite Hout. constructor.
Qed.

Lemma reads_safe {A : Type} (m : M A) : reads m -> safe m.
Proof.
  intros (acts & r0 & Hout & Hm) st r st' H. rewrite Hm in H.
  injection H as _ <-. apply log_all_evolves. exact Hout.
Qed.

Lemma updates_safe (self : pystr) (m : M unit) : updates self m -> safe m.
Proof.
  intros Hu st r st' H.
  destruct (updates_cases _ _ Hu) as (acts & r0 & Hout & Hm).
  specialize (Hm st). destruct r0 as [[text t]|e].
  - simpl in Hm. rewrite Hm in H. injection H as _ <-.
    split; [apply update_block_frame|]. split; [reflexivity|].
    split; [reflexivity|]. simpl.
    eexists. split; [reflexivity|].
    rewrite stdout_of_app, Hout. simpl.
    constructor; [apply render_is_render|constructor].
  - rewrite Hm in H. injection H as _ <-. apply log_all_evolves. exact Hout.
Qed.

(** Every [on_click] but that of [BNetwork] ends in an update of its own
    block; that of [BNetwork] only reads. *)
Lemma on_click_shape env c self event :
  match c with
  | BNetwork => reads (on_click env c self event)
  | _ => updates self (on_click env c self event)
  end.
Proof.
  destruct c.
  - exact (updates_out_once env BCPU self).
  - exact (updates_out_once env BRAM self).
  - exact (updates_out_once env BDisk self).
  - apply updates_BVolume_on_click.
  - apply reads_BNetwork_on_click.
  - exact (updates_out_once env BDateTime self).
Qed.

Lemma safe_on_click env c self event : safe (on_click env c self event).
Proof.
  pose proof (on_click_shape env c self event) as H.
  destruct c; try (apply (updates_safe self); exact H).
  apply reads_safe. exact H.
Qed.

Lemma safe_on_signal env SIGRTMIN c self sig :
  safe (on_signal env SIGRTMIN c self sig).
Proof.
  destruct c; simpl; try apply safe_ret.
  unfold BVolume_on_signal. destruct (sig =? SIGRTMIN + 15)%Z.
  - apply (updates_safe self). apply (updates_out_once env BVolume).
  - apply safe_ret.
Qed.

Lemma safe_for_each {A : Type} (l : list A) (f : A -> M unit) :
  (forall x, safe (f x)) -> safe (for_each l f).
Proof.
  intros Hf. induction l as [|x l IH]; simpl.
  - apply safe_ret.
  - apply safe_bind; auto.
Qed.

Lemma safe_signal_handler env SIGRTMIN sig : safe (signal_handler env SIGRTMIN sig).
Proof.
  intros st r st' H. unfold signal_handler in H.
  eapply safe_for_each; [|exact H].
  intros kb. apply safe_on_signal.
Qed.

Lemma safe_click_handler_body env loads line :
  safe (click_handler_body env loads line).
Proof.
  unfold click_handler_body.
  destruct (startswith (py "[") line); [apply safe_ret|].
  apply safe_bind.
  { unfold json_loads. destruct (loads _); [apply safe_ret|apply safe_raise]. }
  intros event. apply safe_bind; [apply reads_safe, reads_getitem|].
  intros instance. apply safe_bind.
  - destruct instance; simpl; try apply safe_raise.
    intros st r st' H. unfold bind, lookup in H.
    destruct (dict_get s (blocks st)); injection H as _ <-; apply evolves_refl.
  - intros kb. apply safe_on_click.
Qed.

(* ================================================================= *)
(** ** The loop *)

Lemma list_set_same {A : Type} (i : nat) (x y : A) (l : list A) :
  nth_error l i = Some y -> nth_error (list_set i x l) i = Some x.
Proof.
  revert i. induction l as [|z l IH]; intros [|i] H; simpl in *;
    try discriminate; [reflexivity|]. apply IH. exact H.
Qed.

Lemma list_set_other {A : Type} (i j : nat) (x : A) (l : list A) :
  j <> i -> nth_error (list_set i x l) j = nth_error l j.
Proof.
  revert i j. induction l as [|z l IH]; intros [|i] [|j] H; simpl;
    try reflexivity; [contradiction|]. apply IH. congruence.
Qed.

Lemma list_set_fst {A B : Type} (i : nat) (a : A) (b b' : B) (l : list (A * B)) :
  nth_error l i = Some (a, b) -> map fst (list_set i (a, b') l) = map fst l.
Proof.
  revert i. induction l as [|z l IH]; intros [|i] H; simpl in *;
    try discriminate.
  - injection H as ->. reflexivity.
  - rewrite IH by exact H. reflexivity.
Qed.

Lemma end_task_evolves i s st : evolves st (end_task i s st).
Proof.
  unfold end_task, set_tasks.
  split; [apply frame_refl|]. split; [|split; [reflexivity|]].
  - simpl. destruct (nth_error (tasks st) i) as [[co x]|] eqn:E;
      [|reflexivity].
    eapply list_set_fst. exact E.
  - exists []. split; [symmetry; apply app_nil_r|constructor].
Qed.

Lemma activate_evolves i m st : safe m -> evolves st (activate i m st).
Proof.
  intros Hm. unfold activate. destruct (m st) as [[u|e] st'] eqn:E.
  - eapply Hm; eauto.
  - eapply evolves_trans; [eapply Hm; eauto|apply end_task_evolves].
Qed.

Lemma safe_out_once env c self : safe (out_once env c self).
Proof. apply (updates_safe self). apply updates_out_once. Qed.

Lemma step_evolves SIGRTMIN loads env ev st :
  evolves st (step SIGRTMIN loads env ev st).
Proof.
  destruct ev as [i line|i|i|sig]; simpl.
  - destruct (nth_error (tasks st) i) as [[[|c self] [| |e]]|];
      try apply evolves_refl.
    destruct line; [apply end_task_evolves|].
    apply activate_evolves. apply safe_click_handler_body.
  - destruct (nth_error (tasks st) i) as [[[|c self] [| |e]]|];
      try apply evolves_refl.
    apply activate_evolves. apply safe_out_once.
  - destruct (nth_error (tasks st) i) as [[[|c self] [| |e]]|];
      try apply evolves_refl.
    all: destruct c; try apply evolves_refl. apply end_task_evolves.
  - destruct (existsb (Z.eqb sig) (signals st)); [|apply evolves_refl].
    destruct (signal_handler env SIGRTMIN sig st) as [r st'] eqn:E.
    simpl. eapply safe_signal_handler; eauto.
Qed.

Lemma run_forever_evolves SIGRTMIN loads events st :
  evolves st (run_forever SIGRTMIN loads events st).
Proof.
  unfold run_forever. revert st.
  induction events as [|[env ev] events IH]; intros st; simpl.
  - apply evolves_refl.
  - eapply evolves_trans; [apply step_evolves|apply IH].
Qed.

Lemma start_tasks_evolves env i ts st : evolves st (start_tasks env i ts st).
Proof.
  revert i st. induction ts as [|[co s] ts IH]; intros i st; simpl.
  - apply evolves_refl.
  - eapply evolves_trans; [|apply IH].
    destruct co; simpl; [apply evolves_refl|].
    apply activate_evolves. apply safe_out_once.
Qed.

(** From registration on, the process only evolves. *)
Lemma process_evolves SIGRTMIN loads alloc env0 events :
  evolves (snd (main SIGRTMIN alloc initial))
          (process SIGRTMIN loads alloc env0 events).
Proof.
  unfold process, startup.
  eapply evolves_trans; [apply start_tasks_evolves|apply run_forever_evolves].
Qed.

(** The state [main] leaves behind. *)
Lemma main_state SIGRTMIN alloc :
  main SIGRTMIN alloc initial =
  (Ok tt,
   {| blocks :=
        fold_left
          (fun reg c => dict_set (str_of_N (alloc c)) (Block_init c [] (alloc c)) reg)
          registration_order [];
      tasks :=
        (click_handler_task, Running)
        :: map (fun c => (out_loop_task c (str_of_N (alloc c)), Running))
             registration_order;
      signals := [(SIGRTMIN + 15)%Z];
      trace := map Print preamble |}).
Proof. reflexivity. Qed.

(** With distinct addresses the registry holds the six blocks in the order
    of registration. *)
Lemma main_blocks SIGRTMIN alloc :
  (forall c c', alloc c = alloc c' -> c = c') ->
  blocks (snd (main SIGRTMIN alloc initial)) =
  map (fun c => (str_of_N (alloc c), Block_init c [] (alloc c))) registration_order.
Proof.
  intros Hinj. rewrite main_state. simpl.
  assert (forall c c', c <> c' ->
            str_eqb (str_of_N (alloc c)) (str_of_N (alloc c')) = false) as Hne.
  { intros c c' Hcc. apply str_eqb_neq. intros E.
    apply str_of_N_inj, Hinj in E. contradiction. }
  repeat (rewrite Hne by discriminate; simpl).
  reflexivity.
Qed.

Lemma stdout_of_Print lines : stdout_of (map Print lines) = lines.
Proof. induction lines as [|l lines IH]; simpl; [|rewrite IH]; reflexivity. Qed.

Lemma Forall2_with_left {A B : Type} (P : A -> Prop) (R Q : A -> B -> Prop) l l' :
  (forall a b, P a -> R a b -> Q a b) ->
  Forall P l -> Forall2 R l l' -> Forall2 Q l l'.
Proof.
  intros HQ HP HR. induction HR as [|a b l l' Hab HR IH]; constructor;
    inversion HP; subst; auto.
Qed.

Lemma Forall2_map_both {A B C D : Type} (R : B -> C -> Prop) (Q : A -> D -> Prop)
  (f : A -> B) (g : C -> D) l l' :
  (forall a c, R (f a) c -> Q a (g c)) ->
  Forall2 R (map f l) l' -> Forall2 Q l (map g l').
Proof.
  intros HQ. revert l'. induction l as [|a l IH]; intros l' H; simpl in H;
    inversion H; subst; simpl; constructor; auto.
Qed.

(** A block as [main] builds it holds the ten keys, the empty text, the
    defaults, its class name and its address. *)
Lemma Block_init_items c addr :
  items (Block_init c [] addr) =
  (py "full_text", VStr []) :: style_defaults
  ++ [(py "name", VStr (class_name c)); (py "instance", VStr (str_of_N addr))].
Proof. reflexivity. Qed.

Lemma main_blocks_init SIGRTMIN alloc :
  Forall (fun kb => exists c addr, snd kb = Block_init c [] addr)
    (blocks (snd (main SIGRTMIN alloc initial))).
Proof.
  rewrite main_state. cbv [snd blocks].
  generalize (@nil (pystr * Block)) (Forall_nil
    (fun kb : pystr * Block => exists c addr, snd kb = Block_init c [] addr)).
  induction registration_order as [|c cs IH]; intros reg Hreg; simpl.
  - exact Hreg.
  - apply IH. apply dict_set_Forall; [intros k; simpl; eauto|exact Hreg].
Qed.

(** The payload of a block of the running process: that of its
    construction with some text. *)
Lemma same_frame_init c addr k kb :
  same_frame (k, Block_init c [] addr) kb ->
  fst kb = k /\ cls (snd kb) = c /\
  exists text,
    items (snd kb) =
    (py "full_text", VStr text) :: style_defaults
    ++ [(py "name", VStr (class_name c)); (py "instance", VStr (str_of_N addr))].
Proof.
  intros (Hk & Hc & Hi). simpl in *. split; [exact Hk|]. split; [exact Hc|].
  destruct Hi as [E|[text E]]; rewrite E; eauto.
Qed.

(* ================================================================= *)
(** ** The claims *)

(** C10.  After construction the only payload key that the update loops,
    the click handlers and the signal handlers reassign is [full_text]:
    at every moment of the process every registered block has the key
    and the class it was registered with, carries exactly the ten payload
    keys, and binds every key other than [full_text] to the value it had
    when [main] had registered it. *)
Theorem payload_frame :
  forall SIGRTMIN loads alloc env0 events,
    Forall2
      (fun kb0 kb =>
         fst kb = fst kb0 /\ cls (snd kb) = cls (snd kb0) /\
         map fst (items (snd kb)) = payload_keys /\
         forall key, key <> py "full_text" ->
           dict_get key (items (snd kb)) = dict_get key (items (snd kb0)))
      (blocks (snd (main SIGRTMIN alloc initial)))
      (blocks (process SIGRTMIN loads alloc env0 events)).
Proof.
  intros SIGRTMIN loads alloc env0 events.
  destruct (process_evolves SIGRTMIN loads alloc env0 events) as (Hframe & _).
  eapply Forall2_with_left; [|apply main_blocks_init|exact Hframe].
  intros [k0 b0] kb (c & addr & Hb0) Hsame. simpl in Hb0. subst b0.
  apply same_frame_init in Hsame. destruct Hsame as (Hk & Hc & text & Hitems).
  simpl. rewrite Hitems. repeat split; auto.
  intros key Hkey. simpl.
  rewrite (str_eqb_neq _ _ Hkey). reflexivity.
Qed.

(** C2.  [main] writes the three lines of the preamble, in order: the
    header object, the opening bracket, the empty array.  They are written
    before the loop runs, whatever arrives later and also when nothing
    ever arrives, and every line written after them is a render line. *)
Theorem main_writes_preamble :
  forall SIGRTMIN loads alloc env0 events,
    stdout_of (trace (snd (main SIGRTMIN alloc initial)))
    = [js "{'version': 1, 'click_events': true}"; py "["; py "[]"]
    /\ exists renders,
         stdout_of (trace (process SIGRTMIN loads alloc env0 events))
         = preamble ++ renders
         /\ Forall is_render renders.
Proof.
  intros SIGRTMIN loads alloc env0 events.
  assert (forall evs, exists renders,
            stdout_of (trace (process SIGRTMIN loads alloc env0 evs))
            = preamble ++ renders /\ Forall is_render renders) as H.
  { intros evs.
    destruct (process_evolves SIGRTMIN loads alloc env0 evs)
      as (_ & _ & _ & acts & Htrace & Hrender).
    exists (stdout_of acts). split; [|exact Hrender].
    rewrite Htrace, stdout_of_app, main_state. cbv [snd trace].
    rewrite stdout_of_Print. reflexivity. }
  split; [reflexivity|apply H].
Qed.

(** C1.  A render request writes exactly one line: a comma, a space and
    the JSON array of the registered blocks.  With the six blocks at
    distinct addresses the array holds one object per block in the order
    of registration, BCPU, BRAM, BDisk, BVolume, BNetwork, BDateTime; each
    object has the ten payload keys, a string under [full_text], the class
    name under [name], the address in decimal under [instance], and under
    each style key its default.  In [Block.__init__] a keyword argument
    overrides the default of its key and nothing else does. *)
Theorem print_renders_registry :
  forall SIGRTMIN loads alloc env0 events,
    (forall c c', alloc c = alloc c' -> c = c') ->
    let st := process SIGRTMIN loads alloc env0 events in
    exists objs : list dict,
      print st = (Ok tt, log (Print (py ", " ++ dumps (VList (map VDict objs)))) st)
      /\ stdout_of (trace (snd (print st)))
         = stdout_of (trace st) ++ [py ", " ++ dumps (VList (map VDict objs))]
      /\ Forall2
           (fun c obj =>
              map fst obj = payload_keys
              /\ (exists text, dict_get (py "full_text") obj = Some (VStr text))
              /\ dict_get (py "name") obj = Some (VStr (class_name c))
              /\ dict_get (py "instance") obj = Some (VStr (str_of_N (alloc c)))
              /\ forall k v, In (k, v) style_defaults -> dict_get k obj = Some v)
           registration_order objs
      /\ forall c kwargs addr k,
           In k (map fst DEFAULTS) ->
           dict_get k (items (Block_init c kwargs addr))
           = match dict_get k (dict_update [] kwargs) with
             | Some v => Some v
             | None => dict_get k DEFAULTS
             end.
Proof.
  intros SIGRTMIN loads alloc env0 events Hinj st.
  exists (map (fun kb => items (snd kb)) (blocks st)).
  assert (print st
          = (Ok tt, log (Print (py ", " ++ dumps (VList (map VDict
               (map (fun kb => items (snd kb)) (blocks st)))))) st)) as Hprint.
  { unfold print, builtin_print, modify. rewrite map_map. reflexivity. }
  split; [exact Hprint|]. split.
  { rewrite Hprint. simpl. rewrite stdout_of_app. reflexivity. }
  split.
  - destruct (process_evolves SIGRTMIN loads alloc env0 events) as (Hframe & _).
    fold st in Hframe. rewrite (main_blocks _ _ Hinj) in Hframe.
    eapply Forall2_map_both; [|exact Hframe].
    intros c kb Hsame. apply same_frame_init in Hsame.
    destruct Hsame as (_ & _ & text & Hitems). rewrite Hitems.
    split; [reflexivity|]. split; [exists text; reflexivity|].
    split; [reflexivity|]. split; [reflexivity|].
    intros k v Hin. simpl in Hin.
    repeat (destruct Hin as [Hin|Hin]; [injection Hin as <- <-; reflexivity|]).
    contradiction.
  - intros c kwargs addr k Hin. unfold Block_init; simpl items.
    assert (k <> py "name" /\ k <> py "instance") as [Hn Hi].
    { simpl in Hin.
      repeat (destruct Hin as [<-|Hin]; [split; discriminate|]).
      contradiction. }
    rewrite dict_get_set_other by exact Hi.
    rewrite dict_get_set_other by exact Hn.
    apply dict_update_get.
Qed.

(** C1, at the addresses 140 to 145 on a machine whose sources answer,
    right after start-up. *)
Lemma print_renders_registry_witness :
  (forall c c', alloc0 c = alloc0 c' -> c = c') /\
  exists objs : list dict,
    print (process SIGRTMIN_linux loads_simple alloc0 env_up [])
    = (Ok tt, log (Print (py ", " ++ dumps (VList (map VDict objs))))
                (process SIGRTMIN_linux loads_simple alloc0 env_up []))
    /\ List.length objs = 6%nat.
Proof.
  assert (forall c c', alloc0 c = alloc0 c' -> c = c') as Hinj.
  { intros [] [] H; try reflexivity; discriminate H. }
  split; [exact Hinj|].
  destruct (print_renders_registry SIGRTMIN_linux loads_simple alloc0 env_up []
              Hinj) as (objs & Hprint & _ & Hobjs & _).
  exists objs. split; [exact Hprint|].
  apply Forall2_length in Hobjs. symmetry. exact Hobjs.
Defined.

(** C9.  Calling [out_once] twice in a row against unchanged sources (the
    same answers of the commands, the files and the clock) gives the same
    result both times: the second call returns or raises as the first,
    leaves every payload as the first call left it, and writes the very
    lines the first call wrote. *)
Theorem out_once_idempotent :
  forall env c self st,
    let (r1, st1) := out_once env c self st in
    let (r2, st2) := out_once env c self st1 in
    r2 = r1 /\ blocks st2 = blocks st1 /\
    exists lines,
      stdout_of (trace st1) = stdout_of (trace st) ++ lines /\
      stdout_of (trace st2) = stdout_of (trace st1) ++ lines.
Proof.
  intros env c self st.
  destruct (updates_cases _ _ (updates_out_once env c self))
    as (acts & r & Hout & Hm).
  destruct r as [[text t]|e].
  - rewrite (Hm st). simpl. rewrite (Hm _). simpl.
    assert (update_block self (touch text t)
              (update_block self (touch text t) (blocks st))
            = update_block self (touch text t) (blocks st)) as Hsame.
    { rewrite update_block_twice. apply update_block_ext.
      intros b. apply touch_touch. }
    rewrite Hsame. split; [reflexivity|]. split; [reflexivity|].
    exists [render (update_block self (touch text t) (blocks st))].
    rewrite !stdout_of_app, Hout. simpl. split; reflexivity.
  - rewrite (Hm st), (Hm _). split; [reflexivity|]. split; [reflexivity|].
    exists []. simpl. rewrite !stdout_of_app, Hout, !app_nil_r.
    split; reflexivity.
Qed.

Lemma end_task_spec i s st co x :
  nth_error (tasks st) i = Some (co, x) ->
  nth_error (tasks (end_task i s st)) i = Some (co, s)
  /\ (forall j, j <> i ->
        nth_error (tasks (end_task i s st)) j = nth_error (tasks st) j)
  /\ blocks (end_task i s st) = blocks st
  /\ trace (end_task i s st) = trace st
  /\ signals (end_task i s st) = signals st.
Proof.
  intros H. unfold end_task, set_tasks; simpl. rewrite H.
  split; [eapply list_set_same; eauto|].
  split; [intros j Hj; apply list_set_other; exact Hj|].
  repeat split.
Qed.




(** C3, as the code has it.  A line that fails to decode is neither logged
    nor skipped: the decoding error leaves [click_handler] and ends the
    router task.  The line reaches no block and writes nothing, the other
    tasks and the signal handler stay as they were, and no later line is
    read. *)
Theorem click_handler_decode_error_ends_router :
  forall SIGRTMIN loads env st i line,
    nth_error (tasks st) i = Some (click_handler_task, Running) ->
    line <> [] ->
    startswith (py "[") line = false ->
    loads (lstrip (py ",") line) = None ->
    let st' := step SIGRTMIN loads env (Readline i line) st in
    nth_error (tasks st') i = Some (click_handler_task, Failed JSONDecodeError)
    /\ (forall j, j <> i -> nth_error (tasks st') j = nth_error (tasks st) j)
    /\ blocks st' = blocks st
    /\ trace st' = trace st
    /\ signals st' = signals st
    /\ forall env' line', step SIGRTMIN loads env' (Readline i line') st' = st'.
Proof.
  intros SIGRTMIN loads env st i line Hi Hline Hopen Hloads st'.
  assert (st' = end_task i (Failed JSONDecodeError) st) as ->.
  { subst st'. unfold step. rewrite Hi.
    destruct line as [|c line]; [contradiction|].
    unfold activate, click_handler_body. rewrite Hopen.
    unfold bind, json_loads. rewrite Hloads. reflexivity. }
  destruct (end_task_spec i (Failed JSONDecodeError) _ _ _ Hi)
    as (Ht & Hother & Hb & Htr & Hs).
  repeat (split; [assumption|]).
  intros env' line'. unfold step. rewrite Ht. reflexivity.
Qed.

(** C3 at the line [oops], read by the router of a process that has just
    started. *)
Lemma click_handler_decode_error_ends_router_witness :
  let st := startup SIGRTMIN_linux alloc0 env_up in
  let st' := step SIGRTMIN_linux loads_simple env_up
               (Readline 0 (py "oops" ++ [0x0a])) st in
  nth_error (tasks st') 0 = Some (click_handler_task, Failed JSONDecodeError)
  /\ trace st' = trace st.
Proof.
  intros st st'.
  destruct (click_handler_decode_error_ends_router SIGRTMIN_linux loads_simple
              env_up st 0%nat (py "oops" ++ [0x0a]))
    as (Ht & _ & _ & Htr & _).
  - vm_compute. reflexivity.
  - discriminate.
  - reflexivity.
  - reflexivity.
  - split; [exact Ht|exact Htr].
Defined.

(** C3, refuted as stated.  After the malformed line [oops] the router
    task has ended with the decoding error, and a click on the volume
    block that a live router dispatches is no longer processed. *)
Lemma click_handler_decode_error_counterexample :
  let st := startup SIGRTMIN_linux alloc0 env_up in
  let st' := step SIGRTMIN_linux loads_simple env_up
               (Readline 0 (py "oops" ++ [0x0a])) st in
  nth_error (tasks st) 0 = Some (click_handler_task, Running)
  /\ nth_error (tasks st') 0 = Some (click_handler_task, Failed JSONDecodeError)
  /\ step SIGRTMIN_linux loads_simple env_up (Readline 0 volume_click) st' = st'
  /\ List.length (trace (step SIGRTMIN_linux loads_simple env_up
                           (Readline 0 volume_click) st))
     = (List.length (trace st) + 3)%nat.
Proof. vm_compute. repeat split. Qed.

(** C4, as the code has it.  A click event whose instance is no key of the
    registry runs no handler and writes nothing, but it is not ignored:
    the failed lookup raises [KeyError] out of [click_handler], the router
    task ends, and no later line is read. *)
Theorem click_handler_unknown_instance_ends_router :
  forall SIGRTMIN loads env st i line d k,
    nth_error (tasks st) i = Some (click_handler_task, Running) ->
    line <> [] ->
    startswith (py "[") line = false ->
    loads (lstrip (py ",") line) = Some (VDict d) ->
    dict_get (py "instance") d = Some (VStr k) ->
    dict_get k (blocks st) = None ->
    let st' := step SIGRTMIN loads env (Readline i line) st in
    nth_error (tasks st') i = Some (click_handler_task, Failed KeyError)
    /\ (forall j, j <> i -> nth_error (tasks st') j = nth_error (tasks st) j)
    /\ blocks st' = blocks st
    /\ trace st' = trace st
    /\ signals st' = signals st
    /\ forall env' line', step SIGRTMIN loads env' (Readline i line') st' = st'.
Proof.
  intros SIGRTMIN loads env st i line d k Hi Hline Hopen Hloads Hinst Hmiss st'.
  assert (st' = end_task i (Failed KeyError) st) as ->.
  { subst st'. unfold step. rewrite Hi.
    destruct line as [|c line]; [contradiction|].
    unfold activate, click_handler_body. rewrite Hopen.
    unfold bind, json_loads. rewrite Hloads.
    unfold ret, getitem, lookup. rewrite Hinst.
    unfold ret, blocks_getitem, bind, lookup. rewrite Hmiss. reflexivity. }
  destruct (end_task_spec i (Failed KeyError) _ _ _ Hi)
    as (Ht & Hother & Hb & Htr & Hs).
  repeat (split; [assumption|]).
  intros env' line'. unfold step. rewrite Ht. reflexivity.
Qed.

(** C4 at a click for the instance 999, which no block has. *)
Lemma click_handler_unknown_instance_ends_router_witness :
  let st := startup SIGRTMIN_linux alloc0 env_up in
  let st' := step SIGRTMIN_linux loads_simple env_up (Readline 0 stale_click) st in
  nth_error (tasks st') 0 = Some (click_handler_task, Failed KeyError)
  /\ trace st' = trace st.
Proof.
  intros st st'.
  destruct (click_handler_unknown_instance_ends_router SIGRTMIN_linux
              loads_simple env_up st 0%nat stale_click
              [(py "name", VStr (py "BVolume")); (py "instance", VStr (py "999"));
               (py "button", VInt 1)] (py "999"))
    as (Ht & _ & _ & Htr & _).
  - vm_compute. reflexivity.
  - discriminate.
  - reflexivity.
  - vm_compute. reflexivity.
  - reflexivity.
  - vm_compute. reflexivity.
  - split; [exact Ht|exact Htr].
Defined.

(** C4, refuted as stated.  The click for the unknown instance 999 ends
    the router task with [KeyError]; the router does not go on to the
    next line, so a later click on the volume block is lost. *)
Lemma click_handler_unknown_instance_counterexample :
  let st := startup SIGRTMIN_linux alloc0 env_up in
  let st' := step SIGRTMIN_linux loads_simple env_up (Readline 0 stale_click) st in
  nth_error (tasks st) 0 = Some (click_handler_task, Running)
  /\ nth_error (tasks st') 0 = Some (click_handler_task, Failed KeyError)
  /\ step SIGRTMIN_linux loads_simple env_up (Readline 0 volume_click) st' = st'
  /\ List.length (trace (step SIGRTMIN_linux loads_simple env_up
                           (Readline 0 volume_click) st))
     = (List.length (trace st) + 3)%nat.
Proof. vm_compute. repeat split. Qed.

Lemma lstrip_comma_open (line : pystr) :
  startswith (py "[") line = true -> lstrip (py ",") line = line.
Proof.
  destruct line as [|c line]; [reflexivity|]. intros H.
  change (lstrip (py ",") (c :: line))
    with (if (c =? 0x2c) || false then lstrip (py ",") line else c :: line).
  destruct (N.eqb_spec c 0x2c) as [->|Hne]; [discriminate H|reflexivity].
Qed.

(** C6.  On a line read from standard input the router does this: the
    line of the opening bracket is skipped and nothing is dispatched;
    on any line the leading commas are stripped and the rest is decoded,
    and when that gives a click event whose instance is the key of a
    registered block, the router calls [on_click] of that block, and of
    no other, with the event.  What [json.loads] is assumed to do is what
    JSON says: a text that begins with a bracket decodes to a list. *)
Theorem click_handler_body_routes :
  forall env loads,
    (forall s v, startswith (py "[") s = true -> loads s = Some v ->
                 exists l, v = VList l) ->
    forall line st,
      (line = py "[" \/ line = py "[" ++ [0x0a] ->
       click_handler_body env loads line st = (Ok tt, st))
      /\ forall d k b,
           loads (lstrip (py ",") line) = Some (VDict d) ->
           dict_get (py "instance") d = Some (VStr k) ->
           dict_get k (blocks st) = Some b ->
           click_handler_body env loads line st
           = on_click env (cls b) k (VDict d) st.
Proof.
  intros env loads Harray line st. split.
  - intros [-> | ->]; reflexivity.
  - intros d k b Hloads Hinst Hblock.
    destruct (startswith (py "[") line) eqn:Hopen.
    + rewrite (lstrip_comma_open _ Hopen) in Hloads.
      destruct (Harray _ _ Hopen Hloads) as (l & Hl). discriminate Hl.
    + unfold click_handler_body. rewrite Hopen.
      unfold bind, json_loads. rewrite Hloads.
      unfold ret, getitem, lookup. rewrite Hinst.
      unfold ret, blocks_getitem, bind, lookup. rewrite Hblock.
      reflexivity.
Qed.

Lemma loads_simple_open s v :
  startswith (py "[") s = true -> loads_simple s = Some v ->
  exists l, v = VList l.
Proof.
  destruct s as [|c s]; [discriminate|]. intros Hopen H.
  assert (c = 0x5b) as ->.
  { destruct (N.eqb_spec 0x5b c) as [<-|Hne]; [reflexivity|].
    change (startswith (py "[") (c :: s)) with ((0x5b =? c) && true) in Hopen.
    apply andb_true_iff in Hopen. destruct Hopen as [Hc _].
    apply N.eqb_eq in Hc. congruence. }
  discriminate H.
Qed.

(** C6 on the line of the opening bracket and on a click on the volume
    block, registered under 143. *)
Lemma click_handler_body_routes_witness :
  let st := startup SIGRTMIN_linux alloc0 env_up in
  click_handler_body env_up loads_simple (py "[" ++ [0x0a]) st = (Ok tt, st)
  /\ click_handler_body env_up loads_simple volume_click st
     = on_click env_up BVolume (py "143")
         (VDict [(py "name", VStr (py "BVolume"));
                 (py "instance", VStr (py "143")); (py "button", VInt 1)]) st.
Proof.
  intros st.
  destruct (click_handler_body_routes env_up loads_simple loads_simple_open
              (py "[" ++ [0x0a]) st) as (Hskip & _).
  destruct (click_handler_body_routes env_up loads_simple loads_simple_open
              volume_click st) as (_ & Hclick).
  split.
  - apply Hskip. right. reflexivity.
  - apply (Hclick _ (py "143")
             (touch ([0xf028] ++ py " 45%") None (Block_init BVolume [] 143))).
    + vm_compute. reflexivity.
    + reflexivity.
    + vm_compute. reflexivity.
Defined.

Lemma frame_lookup reg0 reg k b0 :
  Forall2 same_frame reg0 reg -> dict_get k reg0 = Some b0 ->
  exists b, dict_get k reg = Some b /\ same_frame (k, b0) (k, b).
Proof.
  induction 1 as [|[k1 b1] [k2 b2] reg0 reg Hsame _ IH]; simpl;
    [discriminate|].
  destruct Hsame as (Hk & Hrest). simpl in Hk. subst k2.
  destruct (str_eqb k k1).
  - intros E. injection E as <-. exists b2. split; [reflexivity|].
    split; [reflexivity|exact Hrest].
  - exact IH.
Qed.



Lemma update_block_lookup (k : pystr) (f : Block -> Block) reg :
  dict_get k (update_block k f reg) = option_map f (dict_get k reg).
Proof.
  induction reg as [|[k' b] reg IH]; simpl; [reflexivity|].
  destruct (str_eqb k k') eqn:E; simpl; rewrite E; [reflexivity|exact IH].
Qed.

(** [BVolume.out_once] when [pamixer] prints a known mute flag and a
    volume. *)
Lemma BVolume_out_once_ok env self st rc out mute volume rest icon :
  run env [py "pamixer"; py "--get-mute"; py "--get-volume"] = Completed rc out ->
  split out = mute :: volume :: rest ->
  dict_get mute BVolume_ICONS = Some icon ->
  let reg := update_block self (touch (icon ++ py " " ++ volume ++ py "%") None)
               (blocks st) in
  BVolume_out_once env self st =
  (Ok tt,
   {| blocks := reg; tasks := tasks st; signals := signals st;
      trace := trace st
               ++ [Spawn [py "pamixer"; py "--get-mute"; py "--get-volume"];
                   Print (render reg)] |}).
Proof.
  intros Hrun Hsplit Hicon reg.
  unfold BVolume_out_once, sh_out, subprocess_run. rewrite Hrun.
  unfold bind, modify, ret. cbn [andb]. rewrite Hsplit.
  unfold index; cbn [nth_error]. unfold ret, lookup. rewrite Hicon.
  unfold ret, setitem, modify, print, builtin_print, modify, log, set_blocks,
    render; simpl.
  rewrite <- app_assoc. reflexivity.
Qed.

(** Under [main] the only signal with a handler is [SIGRTMIN+15]. *)
Lemma process_signals SIGRTMIN loads alloc env0 events :
  signals (process SIGRTMIN loads alloc env0 events) = [(SIGRTMIN + 15)%Z].
Proof.
  destruct (process_evolves SIGRTMIN loads alloc env0 events)
    as (_ & _ & Hs & _).
  rewrite Hs, main_state. reflexivity.
Qed.





(** C8, as the code has it.  A block without click behaviour of its own
    (BCPU, BRAM, BDisk, BDateTime) answers a click with [out_once] alone.
    [BVolume] reads the button of the event, runs the command of the
    button, if the button has one, and then calls [out_once]; when the
    event has no button, or the command cannot be started, it raises and
    does not call [out_once].  [BNetwork] is the exception: its
    [on_click] starts the connection editor on the first button and
    never calls [out_once], so it changes no payload and prints
    nothing. *)
Theorem on_click_effect_then_update :
  forall env self,
    (forall c event,
       c <> BNetwork -> c <> BVolume ->
       on_click env c self event = out_once env c self)
    /\ (forall d button st,
          dict_get (py "button") d = Some button ->
          on_click env BVolume self (VDict d) st
          = match BVolume_command button with
            | None => out_once env BVolume self st
            | Some argv =>
                match run env argv with
                | Completed _ _ => out_once env BVolume self (log (Spawn argv) st)
                | NotStarted => (Raise OSError, st)
                end
            end)
    /\ (forall event st,
          (forall d, event = VDict d -> dict_get (py "button") d = None) ->
          on_click env BVolume self event st
          = (Raise (match event with VDict _ => KeyError | _ => TypeError end),
             st))
    /\ (forall event st,
          let st' := snd (on_click env BNetwork self event st) in
          blocks st' = blocks st
          /\ stdout_of (trace st') = stdout_of (trace st))
    /\ (forall d button st,
          dict_get (py "button") d = Some button ->
          on_click env BNetwork self (VDict d) st
          = if eq_int button 1
            then match run env [py "nm-connection-editor"] with
                 | Completed _ _ => (Ok tt, log (Spawn [py "nm-connection-editor"]) st)
                 | NotStarted => (Raise OSError, st)
                 end
            else (Ok tt, st)).
Proof.
  intros env self. split; [|split; [|split; [|split]]].
  - intros c event Hn Hv. destruct c; try reflexivity; contradiction.
  - intros d button st Hbutton.
    unfold on_click, BVolume_on_click, BVolume_command, bind, getitem, lookup.
    rewrite Hbutton. unfold ret.
    destruct (eq_int button 1).
    { unfold subprocess_run, bind, modify, raise.
      destruct (run env _); reflexivity. }
    destruct (eq_int button 3).
    { unfold subprocess_run, bind, modify, raise.
      destruct (run env _); reflexivity. }
    destruct (eq_int button 4).
    { unfold subprocess_run, bind, modify, raise.
      destruct (run env _); reflexivity. }
    destruct (eq_int button 5).
    { unfold subprocess_run, bind, modify, raise.
      destruct (run env _); reflexivity. }
    reflexivity.
  - intros event st Hnone.
    unfold on_click, BVolume_on_click, bind, getitem, lookup.
    destruct event as [ |b|z|s|l|d]; try reflexivity.
    rewrite (Hnone d eq_refl). reflexivity.
  - intros event st st'. subst st'.
    destruct (reads_BNetwork_on_click env self event) as (acts & r & Hout & Hm).
    simpl on_click. rewrite Hm. simpl.
    rewrite stdout_of_app, Hout, app_nil_r. split; reflexivity.
  - intros d button st Hbutton.
    unfold on_click, BNetwork_on_click, bind, getitem, lookup.
    rewrite Hbutton. unfold ret.
    destruct (eq_int button 1); [|reflexivity].
    unfold subprocess_run, bind, modify, raise.
    destruct (run env [py "nm-connection-editor"]); reflexivity.
Qed.

(** C8 on clicks of the first button: the disk block only updates, the
    volume block toggles the mute and then updates, or raises without
    updating when [pamixer] cannot be started or the event has no button,
    and the network block starts the editor. *)
Lemma on_click_effect_then_update_witness :
  let st := startup SIGRTMIN_linux alloc0 env_up in
  on_click env_up BDisk (py "142") network_click = out_once env_up BDisk (py "142")
  /\ on_click env_up BVolume (py "143")
       (VDict [(py "instance", VStr (py "143")); (py "button", VInt 1)]) st
     = out_once env_up BVolume (py "143")
         (log (Spawn [py "pamixer"; py "--toggle-mute"]) st)
  /\ on_click env_absent BVolume (py "143")
       (VDict [(py "instance", VStr (py "143")); (py "button", VInt 1)]) st
     = (Raise OSError, st)
  /\ on_click env_up BVolume (py "143")
       (VDict [(py "instance", VStr (py "143"))]) st
     = (Raise KeyError, st)
  /\ on_click env_up BNetwork (py "144") network_click st
     = (Ok tt, log (Spawn [py "nm-connection-editor"]) st).
Proof.
  intros st.
  destruct (on_click_effect_then_update env_up (py "142")) as (Hdefault & _).
  destruct (on_click_effect_then_update env_up (py "143"))
    as (_ & Hvolume & Hnobutton & _).
  destruct (on_click_effect_then_update env_absent (py "143"))
    as (_ & Habsent & _).
  destruct (on_click_effect_then_update env_up (py "144"))
    as (_ & _ & _ & _ & Hnetwork).
  split; [|split; [|split; [|split]]].
  - apply Hdefault; discriminate.
  - exact (Hvolume [(py "instance", VStr (py "143")); (py "button", VInt 1)]
             (VInt 1) st eq_refl).
  - exact (Habsent [(py "instance", VStr (py "143")); (py "button", VInt 1)]
             (VInt 1) st eq_refl).
  - apply (Hnobutton (VDict [(py "instance", VStr (py "143"))]) st).
    intros d H. injection H as <-. reflexivity.
  - exact (Hnetwork [(py "name", VStr (py "BNetwork"));
                     (py "instance", VStr (py "144")); (py "button", VInt 1)]
             (VInt 1) st eq_refl).
Defined.

(** C8, refuted as stated.  A click of the first button on the network
    block starts the connection editor and stops there: no render line
    is written, whereas the side effect followed by [out_once] writes
    one. *)
Lemma on_click_network_counterexample :
  let st := startup SIGRTMIN_linux alloc0 env_up in
  let st' := snd (on_click env_up BNetwork (py "144") network_click st) in
  spawned_of (trace st')
  = spawned_of (trace st) ++ [[py "nm-connection-editor"]]
  /\ stdout_of (trace st') = stdout_of (trace st)
  /\ stdout_of (trace (snd (out_once env_up BNetwork (py "144") st')))
     = stdout_of (trace st') ++ [render (blocks st')]
  /\ on_click env_up BNetwork (py "144") network_click st
     <> (subprocess_run env_up [py "nm-connection-editor"] false ;;
         out_once env_up BNetwork (py "144")) st.
Proof.
  intros st st'.
  split; [vm_compute; reflexivity|].
  split; [vm_compute; reflexivity|].
  split; [vm_compute; reflexivity|].
  intros H.
  apply (f_equal (fun p => List.length (trace (snd p)))) in H.
  vm_compute in H. discriminate H.
Qed.

(* ================================================================= *)
(** ** Further properties of the program *)

Lemma printable_app (a b : pystr) :
  forallb is_printable a = true -> forallb is_printable b = true ->
  forallb is_printable (a ++ b) = true.
Proof. intros Ha Hb. rewrite forallb_app, Ha, Hb. reflexivity. Qed.

Lemma printable_decimal (d : Decimal.uint) :
  forallb is_printable (py (DecimalString.NilEmpty.string_of_uint d)) = true.
Proof. induction d; simpl; try reflexivity; assumption. Qed.

Lemma printable_hexadecimal (d : Hexadecimal.uint) :
  forallb is_printable (py (HexadecimalString.NilEmpty.string_of_uint d)) = true.
Proof. induction d; simpl; try reflexivity; assumption. Qed.

Lemma printable_str_of_Z (z : Z) : forallb is_printable (str_of_Z z) = true.
Proof.
  destruct z as [|p|p]; unfold str_of_Z, str_of_N.
  - apply printable_decimal.
  - apply printable_decimal.
  - apply printable_app; [reflexivity|apply printable_decimal].
Qed.

Lemma printable_hex4 (n : N) : forallb is_printable (hex4 n) = true.
Proof.
  unfold hex4, zfill. apply printable_app; [|apply printable_hexadecimal].
  induction (4 - _)%nat; simpl; auto.
Qed.

Lemma printable_escape_char (c : N) : forallb is_printable (escape_char c) = true.
Proof.
  unfold escape_char.
  repeat match goal with
         | |- forallb _ (if ?b then _ else _) = true =>
             destruct b eqn:?; [try reflexivity|]
         end.
  - simpl. unfold is_printable.
    match goal with H : _ && _ = true |- _ => rewrite H end. reflexivity.
  - apply printable_app; [reflexivity|apply printable_hex4].
  - repeat (apply printable_app; [reflexivity||apply printable_hex4|]).
    apply printable_hex4.
Qed.

Lemma printable_encode (s : pystr) :
  forallb is_printable (encode_basestring_ascii s) = true.
Proof.
  unfold encode_basestring_ascii.
  apply printable_app; [reflexivity|]. apply printable_app; [|reflexivity].
  induction s as [|c s IH]; simpl; [reflexivity|].
  apply printable_app; [apply printable_escape_char|exact IH].
Qed.

Lemma printable_join (sep : pystr) (parts : list pystr) :
  forallb is_printable sep = true ->
  Forall (fun p => forallb is_printable p = true) parts ->
  forallb is_printable (join sep parts) = true.
Proof.
  intros Hsep. induction 1 as [|p parts Hp Hparts IH]; [reflexivity|].
  destruct parts as [|q parts]; [exact Hp|].
  change (join sep (p :: q :: parts)) with (p ++ sep ++ join sep (q :: parts)).
  repeat apply printable_app; assumption.
Qed.

(** Whatever the value, [json.dumps] writes printable ASCII only. *)
Lemma printable_dumps (v : pyval) : forallb is_printable (dumps v) = true.
Proof.
  revert v. fix IH 1. intros [ |[|]|z|s|l|d]; try reflexivity.
  - apply printable_str_of_Z.
  - apply printable_encode.
  - change (dumps (VList l))
      with (py "[" ++ join (py ", ") (map dumps l) ++ py "]").
    apply printable_app; [reflexivity|]. apply printable_app; [|reflexivity].
    apply printable_join; [reflexivity|].
    induction l as [|v l IHl]; constructor; [apply IH|exact IHl].
  - change (dumps (VDict d))
      with (py "{"
            ++ join (py ", ")
                 (map (fun kv => encode_basestring_ascii (fst kv) ++ py ": "
                                 ++ dumps (snd kv)) d)
            ++ py "}").
    apply printable_app; [reflexivity|]. apply printable_app; [|reflexivity].
    apply printable_join; [reflexivity|].
    induction d as [|[k v] d IHd]; constructor; [|exact IHd].
    simpl fst; simpl snd.
    apply printable_app; [apply printable_encode|].
    apply printable_app; [reflexivity|apply IH].
Qed.

Lemma printable_not_linebreak (c : N) :
  is_printable c = true -> (c =? 0x0d) = false /\ is_linebreak c = false.
Proof.
  unfold is_printable, is_linebreak. intros H.
  apply andb_true_iff in H. destruct H as [Hlo Hhi].
  apply N.leb_le in Hlo. apply N.leb_le in Hhi.
  split.
  - apply N.eqb_neq. lia.
  - simpl.
    repeat match goal with
           | |- context [c =? ?k] =>
               replace (c =? k) with false by (symmetry; apply N.eqb_neq; lia)
           end.
    reflexivity.
Qed.

Lemma splitlines_printable (cur s : pystr) :
  forallb is_printable s = true -> cur ++ s <> [] ->
  splitlines_from cur s = [rev cur ++ s].
Proof.
  revert cur. induction s as [|c s IH]; intros cur Hs Hne.
  - rewrite app_nil_r in *. destruct cur; [contradiction|reflexivity].
  - simpl in Hs. apply andb_true_iff in Hs. destruct Hs as [Hc Hs].
    destruct (printable_not_linebreak c Hc) as [Hcr Hlb].
    change (splitlines_from cur (c :: s))
      with (if c =? 0x0d then
              match s with
              | d :: rest' =>
                  if d =? 0x0a then rev cur :: splitlines_from [] rest'
                  else rev cur :: splitlines_from [] s
              | [] => rev cur :: splitlines_from [] s
              end
            else if is_linebreak c then rev cur :: splitlines_from [] s
            else splitlines_from (c :: cur) s).
    rewrite Hcr, Hlb. rewrite IH; [|exact Hs|discriminate].
    simpl. rewrite <- app_assoc. reflexivity.
Qed.

(** X1.  The line [StatusLine.print] writes is one line of printable
    ASCII whatever the payloads hold: [json.dumps] escapes every line
    break, control character and non-ASCII code point, so no text of a
    block can break the line or the stream. *)
Theorem print_writes_one_printable_line :
  forall st,
    exists line,
      print st = (Ok tt, log (Print line) st)
      /\ line = render (blocks st)
      /\ forallb is_printable line = true
      /\ splitlines line = [line].
Proof.
  intros st. exists (render (blocks st)).
  assert (forallb is_printable (render (blocks st)) = true) as Hp.
  { unfold render. apply printable_app; [reflexivity|apply printable_dumps]. }
  split; [reflexivity|]. split; [reflexivity|]. split; [exact Hp|].
  unfold splitlines. rewrite splitlines_printable; [reflexivity|exact Hp|].
  discriminate.
Qed.

Lemma updates_updated (self : pystr) (m : M unit) :
  updates self m ->
  exists acts (r : result (pystr * option DateTime)),
    stdout_of acts = [] /\
    forall st,
      m st = match r with
             | Ok (text, t) => (Ok tt, updated self text t acts st)
             | Raise e => (Raise e, log_all acts st)
             end.
Proof.
  intros Hu. destruct (updates_cases _ _ Hu) as (acts & r & Hout & Hm).
  exists acts, r. split; [exact Hout|]. intros st. specialize (Hm st).
  destruct r as [[text t]|e]; exact Hm.
Qed.

Section Respects.

Variable R : State -> State -> Prop.
Hypothesis R_refl : forall st, R st st.
Hypothesis R_trans : forall a b c, R a b -> R b c -> R a c.
Hypothesis R_log : forall acts st, stdout_of acts = [] -> R st (log_all acts st).
Hypothesis R_updated :
  forall self text t acts st,
    stdout_of acts = [] -> R st (updated self text t acts st).

Lemma respects_ret {A : Type} (a : A) : respects R (ret a).
Proof. intros st r st' H. injection H as _ <-. apply R_refl. Qed.

Lemma respects_raise {A : Type} (e : exn) : respects R (@raise A e).
Proof. intros st r st' H. injection H as _ <-. apply R_refl. Qed.

Lemma respects_bind {A B : Type} (m : M A) (k : A -> M B) :
  respects R m -> (forall a, respects R (k a)) -> respects R (bind m k).
Proof.
  intros Hm Hk st r st' H. unfold bind in H.
  destruct (m st) as [[a|e] st1] eqn:E.
  - eapply R_trans; [eapply Hm; eauto|eapply Hk; eauto].
  - injection H as _ <-. eapply Hm; eauto.
Qed.

Lemma respects_reads {A : Type} (m : M A) : reads m -> respects R m.
Proof.
  intros (acts & r0 & Hout & Hm) st r st' H. rewrite Hm in H.
  injection H as _ <-. apply R_log. exact Hout.
Qed.

Lemma respects_updates (self : pystr) (m : M unit) : updates self m -> respects R m.
Proof.
  intros Hu st r st' H.
  destruct (updates_updated _ _ Hu) as (acts & r0 & Hout & Hm).
  rewrite Hm in H. destruct r0 as [[text t]|e]; injection H as _ <-.
  - apply R_updated. exact Hout.
  - apply R_log. exact Hout.
Qed.

Lemma respects_out_once env c self : respects R (out_once env c self).
Proof. apply (respects_updates self). apply updates_out_once. Qed.

Lemma respects_on_click env c self event : respects R (on_click env c self event).
Proof.
  pose proof (on_click_shape env c self event) as H.
  destruct c; try (apply (respects_updates self); exact H).
  apply respects_reads. exact H.
Qed.

Lemma respects_on_signal env SIGRTMIN c self sig :
  respects R (on_signal env SIGRTMIN c self sig).
Proof.
  destruct c; simpl; try apply respects_ret.
  unfold BVolume_on_signal. destruct (sig =? SIGRTMIN + 15)%Z.
  - exact (respects_out_once env BVolume self).
  - apply respects_ret.
Qed.

Lemma respects_for_each {A : Type} (l : list A) (f : A -> M unit) :
  (forall x, respects R (f x)) -> respects R (for_each l f).
Proof.
  intros Hf. induction l as [|x l IH]; simpl.
  - apply respects_ret.
  - apply respects_bind; auto.
Qed.

Lemma respects_signal_handler env SIGRTMIN sig :
  respects R (signal_handler env SIGRTMIN sig).
Proof.
  intros st r st' H. unfold signal_handler in H.
  eapply respects_for_each; [|exact H].
  intros kb. apply respects_on_signal.
Qed.

Lemma respects_click_handler_body env loads line :
  respects R (click_handler_body env loads line).
Proof.
  unfold click_handler_body.
  destruct (startswith (py "[") line); [apply respects_ret|].
  apply respects_bind.
  { unfold json_loads. destruct (loads _);
      [apply respects_ret|apply respects_raise]. }
  intros event. apply respects_bind; [apply respects_reads, reads_getitem|].
  intros instance. apply respects_bind.
  - destruct instance; simpl; try apply respects_raise.
    intros st r st' H. unfold bind, lookup in H.
    destruct (dict_get s (blocks st)); injection H as _ <-; apply R_refl.
  - intros kb. apply respects_on_click.
Qed.

(** When ending a task respects [R] as well, so does every turn of the
    loop, and so does the whole run. *)
Hypothesis R_end_task : forall i s st, R st (end_task i s st).

Lemma respects_activate i (m : M unit) st : respects R m -> R st (activate i m st).
Proof.
  intros Hm. unfold activate. destruct (m st) as [[u|e] st'] eqn:E.
  - eapply Hm; eauto.
  - eapply R_trans; [eapply Hm; eauto|apply R_end_task].
Qed.

Lemma respects_step SIGRTMIN loads env ev st : R st (step SIGRTMIN loads env ev st).
Proof.
  destruct ev as [i line|i|i|sig]; simpl.
  - destruct (nth_error (tasks st) i) as [[[|c self] [| |e]]|];
      try apply R_refl.
    destruct line; [apply R_end_task|].
    apply respects_activate. apply respects_click_handler_body.
  - destruct (nth_error (tasks st) i) as [[[|c self] [| |e]]|];
      try apply R_refl.
    apply respects_activate. apply respects_out_once.
  - destruct (nth_error (tasks st) i) as [[[|c self] [| |e]]|];
      try apply R_refl.
    all: destruct c; try apply R_refl. apply R_end_task.
  - destruct (existsb (Z.eqb sig) (signals st)); [|apply R_refl].
    destruct (signal_handler env SIGRTMIN sig st) as [r st'] eqn:E.
    simpl. eapply respects_signal_handler; eauto.
Qed.

Lemma respects_run_forever SIGRTMIN loads events st :
  R st (run_forever SIGRTMIN loads events st).
Proof.
  unfold run_forever. revert st.
  induction events as [|[env ev] events IH]; intros st; simpl.
  - apply R_refl.
  - eapply R_trans; [apply respects_step|apply IH].
Qed.

Lemma respects_start_tasks env i ts st : R st (start_tasks env i ts st).
Proof.
  revert i st. induction ts as [|[co s] ts IH]; intros i st; simpl.
  - apply R_refl.
  - eapply R_trans; [|apply IH].
    destruct co; simpl; [apply R_refl|].
    apply respects_activate. apply respects_out_once.
Qed.

Lemma respects_process SIGRTMIN loads alloc env0 events :
  R (snd (main SIGRTMIN alloc initial)) (process SIGRTMIN loads alloc env0 events).
Proof.
  unfold process, startup.
  eapply R_trans; [apply respects_start_tasks|apply respects_run_forever].
Qed.

End Respects.

Lemma renders_from_frame reg0 reg1 line :
  Forall2 same_frame reg0 reg1 -> renders_from reg1 line -> renders_from reg0 line.
Proof.
  intros H01 (reg & H1 & Hline). exists reg. split; [|exact Hline].
  eapply frame_trans; eauto.
Qed.

Lemma evolves_fully_refl st : evolves_fully st st.
Proof.
  split; [apply frame_refl|].
  exists []. split; [symmetry; apply app_nil_r|constructor].
Qed.

Lemma evolves_fully_trans st1 st2 st3 :
  evolves_fully st1 st2 -> evolves_fully st2 st3 -> evolves_fully st1 st3.
Proof.
  intros (Hb1 & a1 & Ha1 & Hr1) (Hb2 & a2 & Ha2 & Hr2).
  split; [eapply frame_trans; eauto|].
  exists (a1 ++ a2). split.
  - rewrite Ha2, Ha1, app_assoc. reflexivity.
  - rewrite stdout_of_app. apply Forall_app. split; [exact Hr1|].
    eapply Forall_impl; [|exact Hr2].
    intros line. apply renders_from_frame. exact Hb1.
Qed.

Lemma evolves_fully_log acts st : stdout_of acts = [] -> evolves_fully st (log_all acts st).
Proof.
  intros Hout. split; [apply frame_refl|].
  exists acts. split; [reflexivity|]. rewrite Hout. constructor.
Qed.

Lemma evolves_fully_updated self text t acts st :
  stdout_of acts = [] -> evolves_fully st (updated self text t acts st).
Proof.
  intros Hout. split; [apply update_block_frame|].
  eexists. split; [reflexivity|].
  rewrite stdout_of_app, Hout. simpl.
  constructor; [|constructor].
  eexists. split; [apply update_block_frame|reflexivity].
Qed.

Lemma evolves_fully_end_task i s st : evolves_fully st (end_task i s st).
Proof.
  split; [apply frame_refl|].
  exists []. split; [symmetry; apply app_nil_r|constructor].
Qed.

Lemma process_evolves_fully SIGRTMIN loads alloc env0 events :
  evolves_fully (snd (main SIGRTMIN alloc initial))
                (process SIGRTMIN loads alloc env0 events).
Proof.
  apply respects_process.
  - apply evolves_fully_refl.
  - apply evolves_fully_trans.
  - apply evolves_fully_log.
  - apply evolves_fully_updated.
  - apply evolves_fully_end_task.
Qed.

(** X2.  Every line the process writes after the preamble renders the
    whole registry: with the six blocks at distinct addresses it is a
    comma, a space and a JSON array of six objects in the order of
    registration, each with the ten payload keys, its class name and its
    address.  No line renders a part of the registry or another order. *)
Theorem every_line_renders_all_blocks :
  forall SIGRTMIN loads alloc env0 events,
    (forall c c', alloc c = alloc c' -> c = c') ->
    exists renders,
      stdout_of (trace (process SIGRTMIN loads alloc env0 events))
      = preamble ++ renders
      /\ Forall
           (fun line =>
              exists objs : list dict,
                line = py ", " ++ dumps (VList (map VDict objs))
                /\ Forall2
                     (fun c obj =>
                        map fst obj = payload_keys
                        /\ dict_get (py "name") obj = Some (VStr (class_name c))
                        /\ dict_get (py "instance") obj
                           = Some (VStr (str_of_N (alloc c))))
                     registration_order objs)
           renders.
Proof.
  intros SIGRTMIN loads alloc env0 events Hinj.
  destruct (process_evolves_fully SIGRTMIN loads alloc env0 events)
    as (_ & acts & Htrace & Hrenders).
  exists (stdout_of acts). split.
  { rewrite Htrace, stdout_of_app, main_state. cbv [snd trace].
    rewrite stdout_of_Print. reflexivity. }
  eapply Forall_impl; [|exact Hrenders].
  intros line (reg & Hframe & ->).
  rewrite (main_blocks _ _ Hinj) in Hframe.
  exists (map (fun kb => items (snd kb)) reg). split.
  { unfold render. rewrite map_map. reflexivity. }
  eapply Forall2_map_both; [|exact Hframe].
  intros c kb Hsame. apply same_frame_init in Hsame.
  destruct Hsame as (_ & _ & text & Hitems). rewrite Hitems.
  repeat split.
Qed.

(** X2 at the addresses 140 to 145, right after start-up. *)
Lemma every_line_renders_all_blocks_witness :
  (forall c c', alloc0 c = alloc0 c' -> c = c') /\
  exists renders,
    stdout_of (trace (process SIGRTMIN_linux loads_simple alloc0 env_up []))
    = preamble ++ renders
    /\ List.length renders = 6%nat.
Proof.
  assert (forall c c', alloc0 c = alloc0 c' -> c = c') as Hinj.
  { intros [] [] H; try reflexivity; discriminate H. }
  split; [exact Hinj|].
  destruct (every_line_renders_all_blocks SIGRTMIN_linux loads_simple alloc0
              env_up [] Hinj) as (renders & Hout & _).
  exists renders. split; [exact Hout|].
  apply (f_equal (@List.length pystr)) in Hout.
  rewrite length_app in Hout. vm_compute in Hout.
  injection Hout as Hout. symmetry. exact Hout.
Defined.

Ltac same_tasks_laws :=
  unfold same_tasks; intros; try reflexivity; congruence.

Lemma same_tasks_out_once env c self : respects same_tasks (out_once env c self).
Proof. apply respects_out_once; same_tasks_laws. Qed.

Lemma same_tasks_click_handler_body env loads line :
  respects same_tasks (click_handler_body env loads line).
Proof. apply respects_click_handler_body; same_tasks_laws. Qed.

Lemma same_tasks_signal_handler env SIGRTMIN sig :
  respects same_tasks (signal_handler env SIGRTMIN sig).
Proof. apply respects_signal_handler; same_tasks_laws. Qed.

Lemma step_keeps_ended SIGRTMIN loads env ev st i co s :
  nth_error (tasks st) i = Some (co, s) -> s <> Running ->
  nth_error (tasks (step SIGRTMIN loads env ev st)) i = Some (co, s).
Proof.
  intros Hi Hs.
  assert (forall j (m : M unit),
            respects same_tasks m ->
            (exists co', nth_error (tasks st) j = Some (co', Running)) ->
            nth_error (tasks (activate j m st)) i = Some (co, s)) as Hact.
  { intros j m Hm (co' & Hj). unfold activate.
    destruct (m st) as [[u|e] st'] eqn:E; apply Hm in E; unfold same_tasks in E.
    - rewrite E. exact Hi.
    - unfold end_task, set_tasks; simpl. rewrite E, Hj.
      rewrite list_set_other; [exact Hi|].
      intros ->. rewrite Hi in Hj. injection Hj as _ ->. contradiction. }
  assert (forall j x,
            (exists co', nth_error (tasks st) j = Some (co', Running)) ->
            nth_error (tasks (end_task j x st)) i = Some (co, s)) as Hend.
  { intros j x (co' & Hj). unfold end_task, set_tasks; simpl. rewrite Hj.
    rewrite list_set_other; [exact Hi|].
    intros ->. rewrite Hi in Hj. injection Hj as _ ->. contradiction. }
  destruct ev as [j line|j|j|sig]; simpl.
  - destruct (nth_error (tasks st) j) as [[[|c self] [| |e]]|] eqn:Hj;
      try exact Hi.
    destruct line as [|ch line]; [apply Hend; eauto|].
    apply Hact; [apply same_tasks_click_handler_body|eauto].
  - destruct (nth_error (tasks st) j) as [[[|c self] [| |e]]|] eqn:Hj;
      try exact Hi.
    apply Hact; [apply same_tasks_out_once|eauto].
  - destruct (nth_error (tasks st) j) as [[[|c self] [| |e]]|] eqn:Hj;
      try exact Hi.
    all: destruct c; try exact Hi. apply Hend; eauto.
  - destruct (existsb (Z.eqb sig) (signals st)); [|exact Hi].
    destruct (signal_handler env SIGRTMIN sig st) as [r st'] eqn:E.
    apply same_tasks_signal_handler in E. unfold same_tasks in E. simpl. rewrite E. exact Hi.
Qed.

(** X3.  A task that has ended, by returning or by an exception, is never
    started again: whatever arrives later, it stays in the state in which
    it ended.  A router that has failed reads no more clicks, and a loop
    that has failed updates its block no more, for the rest of the
    process. *)
Theorem ended_task_stays_ended :
  forall SIGRTMIN loads events st i co s,
    nth_error (tasks st) i = Some (co, s) ->
    s <> Running ->
    nth_error (tasks (run_forever SIGRTMIN loads events st)) i = Some (co, s).
Proof.
  intros SIGRTMIN loads events. unfold run_forever.
  induction events as [|[env ev] events IH]; intros st i co s Hi Hs; simpl.
  - exact Hi.
  - apply IH; [|exact Hs]. apply step_keeps_ended; assumption.
Qed.

(** X3 on a disk loop that failed at start-up: a click, a wake-up and the
    signal later it is still failed. *)
Lemma ended_task_stays_ended_witness :
  nth_error
    (tasks (run_forever SIGRTMIN_linux loads_simple
              [(env_up, Readline 0 volume_click); (env_up, Wake 3);
               (env_up, Signal 49)]
              (startup SIGRTMIN_linux alloc0 env_down))) 3
  = Some (out_loop_task BDisk (py "142"), Failed CalledProcessError).
Proof.
  apply ended_task_stays_ended.
  - vm_compute. reflexivity.
  - discriminate.
Defined.

Lemma nth_error_middle {A : Type} (pre : list A) (x : A) (rest : list A) :
  nth_error (pre ++ x :: rest) (List.length pre) = Some x.
Proof. induction pre as [|y pre IH]; simpl; [reflexivity|exact IH]. Qed.

Lemma list_set_middle {A : Type} (pre : list A) (x y : A) (rest : list A) :
  list_set (List.length pre) y (pre ++ x :: rest) = pre ++ y :: rest.
Proof. induction pre as [|z pre IH]; simpl; [reflexivity|]. rewrite IH. reflexivity. Qed.

Lemma running_loops_bound (ts : list (coroutine * task_state)) :
  (running_loops ts
   <= running_loops (map (fun co => (co, Running)) (map fst ts)))%nat.
Proof.
  induction ts as [|[[|c self] [| |e]] ts IH]; simpl; lia.
Qed.

(** Starting the tasks writes one line for each loop that is left
    running, and none for a loop that failed. *)
Lemma start_tasks_count env ts :
  forall pre st,
    tasks st = pre ++ ts ->
    Forall (fun t => snd t = Running) ts ->
    exists ts',
      tasks (start_tasks env (List.length pre) ts st) = pre ++ ts'
      /\ map fst ts' = map fst ts
      /\ List.length (stdout_of (trace (start_tasks env (List.length pre) ts st)))
         = (List.length (stdout_of (trace st)) + running_loops ts')%nat.
Proof.
  induction ts as [|[co s] ts IH]; intros pre st Htasks Hrun.
  - exists []. simpl. repeat split; [exact Htasks|lia].
  - inversion Hrun as [|? ? Hs Hrun']; subst. simpl in Hs. subst s.
    assert (forall st1 x,
              tasks st1 = pre ++ (co, x) :: ts ->
              exists ts',
                tasks (start_tasks env (S (List.length pre)) ts st1)
                = pre ++ (co, x) :: ts'
                /\ map fst ts' = map fst ts
                /\ List.length
                     (stdout_of (trace (start_tasks env (S (List.length pre)) ts st1)))
                   = (List.length (stdout_of (trace st1)) + running_loops ts')%nat)
      as Hnext.
    { intros st1 x H1.
      destruct (IH (pre ++ [(co, x)]) st1) as (ts' & Ht & Hf & Hn).
      - rewrite <- app_assoc. exact H1.
      - exact Hrun'.
      - rewrite last_length in Ht, Hn. exists ts'.
        rewrite <- app_assoc in Ht. repeat split; assumption. }
    simpl. destruct co as [|c self]; simpl.
    + destruct (Hnext st Running Htasks) as (ts' & Ht & Hf & Hn).
      exists ((click_handler_task, Running) :: ts').
      split; [exact Ht|]. split; [simpl; rewrite Hf; reflexivity|exact Hn].
    + unfold activate.
      destruct (updates_updated _ _ (updates_out_once env c self))
        as (acts & r & Hout & Hm).
      rewrite Hm. destruct r as [[text t]|e].
      * destruct (Hnext (updated self text t acts st) Running Htasks)
          as (ts' & Ht & Hf & Hn).
        exists ((out_loop_task c self, Running) :: ts').
        split; [exact Ht|]. split; [simpl; rewrite Hf; reflexivity|].
        rewrite Hn. simpl. rewrite !stdout_of_app, Hout. simpl.
        rewrite length_app. simpl. lia.
      * assert (tasks (end_task (List.length pre) (Failed e) (log_all acts st))
                = pre ++ (out_loop_task c self, Failed e) :: ts) as H1.
        { unfold end_task, set_tasks; simpl. rewrite Htasks, nth_error_middle.
          apply list_set_middle. }
        destruct (Hnext _ (Failed e) H1) as (ts' & Ht & Hf & Hn).
        exists ((out_loop_task c self, Failed e) :: ts').
        split; [exact Ht|]. split; [simpl; rewrite Hf; reflexivity|].
        rewrite Hn. simpl. rewrite stdout_of_app, Hout, app_nil_r.
        reflexivity.
Qed.

(** X4.  When the process first waits, its output is the three lines of
    the preamble and one render line for each update loop that is still
    running: a block whose first update succeeded has written one line,
    a block whose first update raised has written none and its loop has
    ended.  So start-up writes at most nine lines. *)
Theorem startup_renders_once_per_running_loop :
  forall SIGRTMIN alloc env,
    let st := startup SIGRTMIN alloc env in
    List.length (stdout_of (trace st)) = (3 + running_loops (tasks st))%nat
    /\ (running_loops (tasks st) <= 6)%nat.
Proof.
  intros SIGRTMIN alloc env st. subst st. unfold startup.
  set (s0 := snd (main SIGRTMIN alloc initial)).
  assert (tasks s0
          = (click_handler_task, Running)
            :: map (fun c => (out_loop_task c (str_of_N (alloc c)), Running))
                 registration_order) as Htasks0.
  { unfold s0. rewrite main_state. reflexivity. }
  assert (stdout_of (trace s0) = preamble) as Hout0.
  { unfold s0. rewrite main_state. cbv [snd trace]. apply stdout_of_Print. }
  destruct (start_tasks_count env (tasks s0) [] s0 eq_refl)
    as (ts' & Ht & Hf & Hn).
  { rewrite Htasks0. repeat constructor. }
  change (List.length (@nil (coroutine * task_state))) with 0%nat in Ht, Hn.
  change ([] ++ ts') with ts' in Ht.
  rewrite Ht, Hn, Hout0. split; [reflexivity|].
  eapply Nat.le_trans; [apply running_loops_bound|].
  rewrite Hf, Htasks0. simpl. lia.
Qed.

Lemma update_block_lookup_other (k self : pystr) (f : Block -> Block) reg :
  k <> self -> dict_get k (update_block self f reg) = dict_get k reg.
Proof.
  intros Hne. induction reg as [|[k' b] reg IH]; simpl; [reflexivity|].
  destruct (str_eqb self k') eqn:E; simpl.
  - apply str_eqb_eq in E. subst k'. rewrite (str_eqb_neq _ _ Hne).
    reflexivity.
  - rewrite IH. reflexivity.
Qed.

Lemma only_touches_reads {A : Type} (self : pystr) (m : M A) :
  reads m -> only_touches self m.
Proof.
  intros (acts & r0 & _ & Hm) st r st' k H _. rewrite Hm in H.
  injection H as _ <-. reflexivity.
Qed.

Lemma only_touches_updates (self : pystr) (m : M unit) :
  updates self m -> only_touches self m.
Proof.
  intros Hu st r st' k H Hk.
  destruct (updates_updated _ _ Hu) as (acts & r0 & _ & Hm).
  rewrite Hm in H. destruct r0 as [[text t]|e]; injection H as _ <-.
  - apply update_block_lookup_other. exact Hk.
  - reflexivity.
Qed.

(** X5.  [out_once] and [on_click] of a block change no block but their
    own: every other entry of the registry is after the call what it was
    before, whether the call returns or raises. *)
Theorem handlers_touch_own_block_only :
  forall env c self event st k,
    k <> self ->
    dict_get k (blocks (snd (out_once env c self st))) = dict_get k (blocks st)
    /\ dict_get k (blocks (snd (on_click env c self event st)))
       = dict_get k (blocks st).
Proof.
  intros env c self event st k Hk. split.
  - destruct (out_once env c self st) as [r st'] eqn:E.
    exact (only_touches_updates self _ (updates_out_once env c self)
             st r st' k E Hk).
  - destruct (on_click env c self event st) as [r st'] eqn:E.
    pose proof (on_click_shape env c self event) as H.
    destruct c;
      try exact (only_touches_updates self _ H st r st' k E Hk).
    exact (only_touches_reads self _ H st r st' k E Hk).
Qed.

(** X5 on a click on the volume block: the disk block is left alone. *)
Lemma handlers_touch_own_block_only_witness :
  let st := startup SIGRTMIN_linux alloc0 env_up in
  dict_get (py "142")
    (blocks (snd (on_click env_up BVolume (py "143") network_click st)))
  = dict_get (py "142") (blocks st).
Proof.
  intros st.
  destruct (handlers_touch_own_block_only env_up BVolume (py "143")
              network_click st (py "142")) as (_ & H).
  - discriminate.
  - exact H.
Defined.

(** X6.  A signal changes no block that is not a volume block: whatever
    the signal and whatever [pamixer] answers, a block under a key that
    no [BVolume] holds keeps its payload through [signal_handler]. *)
Theorem signal_handler_touches_volume_only :
  forall env SIGRTMIN sig st k,
    (forall b, In (k, b) (blocks st) -> cls b <> BVolume) ->
    dict_get k (blocks (snd (signal_handler env SIGRTMIN sig st)))
    = dict_get k (blocks st).
Proof.
  intros env SIGRTMIN sig st k. unfold signal_handler.
  generalize (blocks st) at 1 2 as l. intros l. revert st.
  induction l as [|[k' b'] l IH]; intros st Hk; simpl.
  - reflexivity.
  - unfold bind.
    destruct (on_signal env SIGRTMIN (cls b') k' sig st) as [[u|e] st1] eqn:E.
    + rewrite IH by (intros b Hb; apply Hk; right; exact Hb).
      clear IH. destruct (cls b') eqn:Hc; simpl in E;
        try (injection E as _ <-; reflexivity).
      unfold BVolume_on_signal in E.
      destruct (sig =? SIGRTMIN + 15)%Z; [|injection E as _ <-; reflexivity].
      assert (k <> k') as Hne.
      { intros ->. apply (Hk b'); [left; reflexivity|exact Hc]. }
      exact (only_touches_updates k' _ (updates_out_once env BVolume k')
               st _ st1 k E Hne).
    + simpl. destruct (cls b') eqn:Hc; simpl in E; try discriminate E.
      unfold BVolume_on_signal in E.
      destruct (sig =? SIGRTMIN + 15)%Z; [|discriminate E].
      assert (k <> k') as Hne.
      { intros ->. apply (Hk b'); [left; reflexivity|exact Hc]. }
      exact (only_touches_updates k' _ (updates_out_once env BVolume k')
               st _ st1 k E Hne).
Qed.

(** X6 on the disk block, at signal 49 after start-up. *)
Lemma signal_handler_touches_volume_only_witness :
  let st := startup SIGRTMIN_linux alloc0 env_up in
  dict_get (py "142") (blocks (snd (signal_handler env_up SIGRTMIN_linux 49 st)))
  = dict_get (py "142") (blocks st).
Proof.
  intros st. apply signal_handler_touches_volume_only.
  intros b Hb. vm_compute in Hb.
  repeat (destruct Hb as [Hb|Hb];
          [first [discriminate Hb | injection Hb as <-; discriminate]|]).
  contradiction.
Defined.

(** X7.  [BDateTime.out_once] never raises: whatever the state, it sets
    [now] and the text to the formatted time and writes one render line.
    After it the delay of [out_loop], [60 - self.now.second], is defined
    for a registered block and lies between 1 and 60 seconds, so the loop
    neither spins nor oversleeps a minute; before the first [out_once]
    the block has no [now]. *)
Theorem BDateTime_out_once_total :
  forall env self st,
    BDateTime_out_once env self st
    = (Ok tt, updated self (strftime (clock env)) (Some (clock env)) [] st)
    /\ (forall b,
          dict_get self (blocks st) = Some b ->
          (second (clock env) <= 59)%N ->
          exists d,
            BDateTime_delay self (snd (BDateTime_out_once env self st)) = Some d
            /\ d = (60 - Z.of_N (second (clock env)))%Z
            /\ (1 <= d <= 60)%Z)
    /\ (forall c kwargs addr reg,
          BDateTime_delay self
            {| blocks := dict_set self (Block_init c kwargs addr) reg;
               tasks := []; signals := []; trace := [] |} = None).
Proof.
  intros env self st.
  assert (BDateTime_out_once env self st
          = (Ok tt, updated self (strftime (clock env)) (Some (clock env)) [] st))
    as Hrun.
  { unfold BDateTime_out_once, bind, set_now, setitem, modify, set_blocks,
      print, builtin_print, modify, log, updated, render; simpl.
    rewrite update_block_twice. reflexivity. }
  split; [exact Hrun|]. split.
  - intros b Hb Hsec. rewrite Hrun. eexists. split; [|split; [reflexivity|lia]].
    unfold BDateTime_delay, updated; simpl.
    rewrite update_block_lookup, Hb. reflexivity.
  - intros c kwargs addr reg. unfold BDateTime_delay; simpl.
    rewrite dict_get_set_same. reflexivity.
Qed.

(** X7 on the date block after start-up, at second 42. *)
Lemma BDateTime_out_once_total_witness :
  BDateTime_delay (py "145")
    (snd (BDateTime_out_once env_up (py "145")
            (startup SIGRTMIN_linux alloc0 env_up)))
  = Some 18%Z.
Proof.
  destruct (BDateTime_out_once_total env_up (py "145")
              (startup SIGRTMIN_linux alloc0 env_up)) as (_ & Hdelay & _).
  destruct (Hdelay (touch (strftime (clock env_up)) (Some (clock env_up))
                      (Block_init BDateTime [] 145)))
    as (d & Hd & -> & _).
  - vm_compute. reflexivity.
  - vm_compute. discriminate.
  - exact Hd.
Defined.

Lemma dict_set_keys_in {V : Type} (k k' : pystr) (v : V) (d : list (pystr * V)) :
  In k' (map fst (dict_set k v d)) -> k' = k \/ In k' (map fst d).
Proof.
  induction d as [|[k1 v1] d IH]; simpl.
  - intros [<-|[]]. left; reflexivity.
  - destruct (str_eqb k k1) eqn:E; simpl.
    + intros H. right. exact H.
    + intros [<-|H]; [right; left; reflexivity|].
      destruct (IH H) as [->|Hin]; [left; reflexivity|right; right; exact Hin].
Qed.

Lemma dict_set_NoDup {V : Type} (k : pystr) (v : V) (d : list (pystr * V)) :
  NoDup (map fst d) -> NoDup (map fst (dict_set k v d)).
Proof.
  induction d as [|[k1 v1] d IH]; simpl; intros H.
  - constructor; [intros []|constructor].
  - inversion H as [|? ? Hnotin Hd]; subst.
    destruct (str_eqb k k1) eqn:E; simpl.
    + constructor; assumption.
    + constructor; [|apply IH; exact Hd].
      intros Hin. apply dict_set_keys_in in Hin. destruct Hin as [->|Hin].
      * rewrite str_eqb_refl in E. discriminate.
      * contradiction.
Qed.

Lemma dict_update_NoDup (d other : dict) :
  NoDup (map fst d) -> NoDup (map fst (dict_update d other)).
Proof.
  unfold dict_update. revert d.
  induction other as [|[k v] other IH]; intros d H; simpl; [exact H|].
  apply IH. apply dict_set_NoDup. exact H.
Qed.


Lemma dict_update_keeps (k : pystr) (d other : dict) :
  dict_get k d <> None -> dict_get k (dict_update d other) <> None.
Proof.
  intros H. rewrite dict_update_get.
  destruct (dict_get k (dict_update [] other)); [discriminate|exact H].
Qed.

(** X8.  [Block.__init__] fixes the name and the instance after the
    keyword arguments are applied, so no keyword argument can override
    them; every key of [DEFAULTS] is bound, and no key is bound twice,
    whatever the keyword arguments are. *)
Theorem Block_init_fixed_fields :
  forall c kwargs addr,
    let d := items (Block_init c kwargs addr) in
    dict_get (py "name") d = Some (VStr (class_name c))
    /\ dict_get (py "instance") d = Some (VStr (str_of_N addr))
    /\ (forall k, In k (map fst DEFAULTS) -> dict_get k d <> None)
    /\ NoDup (map fst d).
Proof.
  intros c kwargs addr d. subst d. unfold Block_init; simpl items.
  split; [|split; [|split]].
  - rewrite dict_get_set_other by discriminate. apply dict_get_set_same.
  - apply dict_get_set_same.
  - intros k Hin.
    assert (k <> py "name" /\ k <> py "instance") as [Hn Hi].
    { simpl in Hin.
      repeat (destruct Hin as [<-|Hin]; [split; discriminate|]).
      contradiction. }
    rewrite dict_get_set_other by exact Hi.
    rewrite dict_get_set_other by exact Hn.
    apply dict_update_keeps. simpl in Hin.
    repeat (destruct Hin as [<-|Hin]; [discriminate|]). contradiction.
  - apply dict_set_NoDup, dict_set_NoDup, dict_update_NoDup.
    change (dict_update [] DEFAULTS) with DEFAULTS.
    repeat (constructor;
            [simpl; intros H;
             repeat (destruct H as [H|H]; [discriminate H|]); contradiction|]).
    constructor.
Qed.

(** X8 on a block built with a name, an instance and a border of its
    own. *)
Lemma Block_init_fixed_fields_witness :
  let d := items (Block_init BCPU
                    [(py "name", VStr (py "mine")); (py "instance", VStr (py "1"));
                     (py "border", VStr (py "#ff0000"))] 140) in
  dict_get (py "name") d = Some (VStr (py "BCPU"))
  /\ dict_get (py "instance") d = Some (VStr (py "140"))
  /\ dict_get (py "min_width") d <> None.
Proof.
  intros d.
  destruct (Block_init_fixed_fields BCPU
              [(py "name", VStr (py "mine")); (py "instance", VStr (py "1"));
               (py "border", VStr (py "#ff0000"))] 140)
    as (Hname & Hinstance & Hkeys & _).
  split; [exact Hname|]. split; [exact Hinstance|].
  apply Hkeys. simpl. tauto.
Defined.



Lemma dict_set_Forall_key {V : Type} (P : pystr * V -> Prop) (k : pystr) (v : V)
  (d : list (pystr * V)) :
  P (k, v) -> Forall P d -> Forall P (dict_set k v d).
Proof.
  intros Hv. induction 1 as [|[k' v'] d Hx Hd IH]; simpl.
  - constructor; [exact Hv|constructor].
  - destruct (str_eqb k k') eqn:E; constructor; auto.
    apply str_eqb_eq in E. subst k'. exact Hv.
Qed.

Lemma frame_keys reg0 reg :
  Forall2 same_frame reg0 reg -> map fst reg = map fst reg0.
Proof.
  induction 1 as [|kb0 kb reg0 reg (Hk & _) _ IH]; simpl; [reflexivity|].
  rewrite Hk, IH. reflexivity.
Qed.

(** X10.  At every moment of the process, whatever the addresses, the
    keys of the registry are distinct, and every block is stored under
    its own instance: the [instance] of its payload is its key and the
    [name] of its payload is the name of its class.  So a click event is
    routed to the block that rendered the instance it carries. *)
Theorem registry_keys_are_instances :
  forall SIGRTMIN loads alloc env0 events,
    let st := process SIGRTMIN loads alloc env0 events in
    NoDup (map fst (blocks st))
    /\ Forall
         (fun kb =>
            dict_get (py "instance") (items (snd kb)) = Some (VStr (fst kb))
            /\ dict_get (py "name") (items (snd kb))
               = Some (VStr (class_name (cls (snd kb)))))
         (blocks st).
Proof.
  intros SIGRTMIN loads alloc env0 events st.
  destruct (process_evolves SIGRTMIN loads alloc env0 events) as (Hframe & _).
  fold st in Hframe.
  set (reg0 := blocks (snd (main SIGRTMIN alloc initial))) in *.
  assert (NoDup (map fst reg0)
          /\ Forall (fun kb => exists c addr,
                       fst kb = str_of_N addr /\ snd kb = Block_init c [] addr)
               reg0) as [Hnodup Hinit].
  { unfold reg0. rewrite main_state. cbv [snd blocks].
    assert (forall cs reg,
              NoDup (map fst reg) ->
              Forall (fun kb : pystr * Block => exists c addr,
                        fst kb = str_of_N addr /\ snd kb = Block_init c [] addr)
                reg ->
              let reg' :=
                fold_left
                  (fun reg c =>
                     dict_set (str_of_N (alloc c)) (Block_init c [] (alloc c)) reg)
                  cs reg in
              NoDup (map fst reg')
              /\ Forall (fun kb : pystr * Block => exists c addr,
                           fst kb = str_of_N addr /\ snd kb = Block_init c [] addr)
                   reg') as Hfold.
    { induction cs as [|c cs IH]; intros reg Hn Hreg; simpl.
      - split; assumption.
      - apply IH; [apply dict_set_NoDup; exact Hn|].
        apply dict_set_Forall_key; [simpl; eauto|exact Hreg]. }
    apply Hfold; constructor. }
  split.
  - rewrite (frame_keys _ _ Hframe). exact Hnodup.
  - revert Hinit. clear Hnodup. induction Hframe as [|kb0 kb r0 r Hsame _ IH];
      intros Hinit; [constructor|].
    inversion Hinit as [|? ? (c & addr & Hk & Hb) Hinit']; subst.
    constructor; [|apply IH; exact Hinit'].
    destruct kb0 as [k0 b0]. simpl in Hk, Hb. subst k0 b0.
    apply same_frame_init in Hsame.
    destruct Hsame as (-> & -> & text & ->). split; reflexivity.
Qed.

(** X11.  After start-up no task is created and none is removed: the loop
    holds the router and one update loop for each block, in the order of
    registration, and with distinct addresses every update loop updates
    a block that is registered under its key with its class. *)
Theorem tasks_are_fixed :
  forall SIGRTMIN loads alloc env0 events,
    (forall c c', alloc c = alloc c' -> c = c') ->
    let st := process SIGRTMIN loads alloc env0 events in
    map fst (tasks st)
    = click_handler_task
      :: map (fun c => out_loop_task c (str_of_N (alloc c))) registration_order
    /\ forall c,
         exists b,
           dict_get (str_of_N (alloc c)) (blocks st) = Some b /\ cls b = c.
Proof.
  intros SIGRTMIN loads alloc env0 events Hinj st.
  destruct (process_evolves SIGRTMIN loads alloc env0 events)
    as (Hframe & Htasks & _).
  fold st in Hframe, Htasks. split.
  - rewrite Htasks, main_state. reflexivity.
  - intros c. rewrite (main_blocks _ _ Hinj) in Hframe.
    destruct (frame_lookup _ _ (str_of_N (alloc c)) (Block_init c [] (alloc c))
                Hframe) as (b & Hb & Hsame).
    + assert (forall c', c' <> c ->
                str_eqb (str_of_N (alloc c)) (str_of_N (alloc c')) = false)
        as Hne.
      { intros c' Hc. apply str_eqb_neq. intros E.
        apply str_of_N_inj, Hinj in E. congruence. }
      destruct c; simpl;
        repeat (first [rewrite str_eqb_refl; reflexivity
                      |rewrite Hne by discriminate]).
    + apply same_frame_init in Hsame. destruct Hsame as (_ & Hc & _).
      exists b. split; assumption.
Qed.

(** X11 at the addresses 140 to 145 after start-up. *)
Lemma tasks_are_fixed_witness :
  (forall c c', alloc0 c = alloc0 c' -> c = c') /\
  map fst (tasks (process SIGRTMIN_linux loads_simple alloc0 env_up []))
  = click_handler_task
    :: map (fun c => out_loop_task c (str_of_N (alloc0 c))) registration_order.
Proof.
  assert (forall c c', alloc0 c = alloc0 c' -> c = c') as Hinj.
  { intros [] [] H; try reflexivity; discriminate H. }
  split; [exact Hinj|].
  destruct (tasks_are_fixed SIGRTMIN_linux loads_simple alloc0 env_up [] Hinj)
    as (Htasks & _).
  exact Htasks.
Defined.

(** X12.  [SIGRTMIN+15] is the only signal the blocks react to: for any
    other number [signal_handler] returns without running a command,
    printing a line or changing a block, whatever the registry holds.
    And [SIGRTMIN+15] is the only signal the process ever has a handler
    for: [main] registers that one and nothing registers another. *)
Theorem other_signals_are_ignored :
  forall SIGRTMIN,
    (forall sig env st,
       sig <> (SIGRTMIN + 15)%Z ->
       signal_handler env SIGRTMIN sig st = (Ok tt, st))
    /\ forall loads alloc env0 events,
         signals (process SIGRTMIN loads alloc env0 events)
         = [(SIGRTMIN + 15)%Z].
Proof.
  intros SIGRTMIN. split.
  - intros sig env st Hsig. apply Z.eqb_neq in Hsig. unfold signal_handler.
    generalize (blocks st) as l. intros l. revert st.
    induction l as [|[k b] l IH]; intros st; simpl; [reflexivity|].
    unfold bind.
    assert (on_signal env SIGRTMIN (cls b) k sig st = (Ok tt, st)) as ->.
    { destruct (cls b); simpl; try reflexivity.
      unfold BVolume_on_signal. rewrite Hsig. reflexivity. }
    apply IH.
  - intros loads alloc env0 events. apply process_signals.
Qed.

(** X12 at signal 48 on Linux, where the handled signal is 49. *)
Lemma other_signals_are_ignored_witness :
  signal_handler env_up SIGRTMIN_linux 48 (startup SIGRTMIN_linux alloc0 env_up)
  = (Ok tt, startup SIGRTMIN_linux alloc0 env_up).
Proof.
  destruct (other_signals_are_ignored SIGRTMIN_linux) as (H & _).
  apply H. discriminate.
Defined.

Lemma lstrip_commas (n : nat) (rest : pystr) :
  lstrip (py ",") (repeat 0x2c n ++ rest) = lstrip (py ",") rest.
Proof. induction n as [|n IH]; [reflexivity|exact IH]. Qed.

(** X13.  The router skips every line that begins with a bracket,
    whatever follows it, so a click event inside an array is never
    dispatched; and it strips all the leading commas of a line, not only
    one, so any number of them is read as a single one. *)
Theorem click_handler_body_brackets_and_commas :
  forall env loads st,
    (forall line,
       startswith (py "[") line = true ->
       click_handler_body env loads line st = (Ok tt, st))
    /\ forall n rest,
         click_handler_body env loads (repeat 0x2c (S n) ++ rest) st
         = click_handler_body env loads (py "," ++ rest) st.
Proof.
  intros env loads st. split.
  - intros line H. unfold click_handler_body. rewrite H. reflexivity.
  - intros n rest. unfold click_handler_body.
    change (startswith (py "[") (repeat 0x2c (S n) ++ rest)) with false.
    change (startswith (py "[") (py "," ++ rest)) with false.
    cbv iota. rewrite lstrip_commas.
    change (py "," ++ rest) with (repeat 0x2c 1 ++ rest).
    rewrite lstrip_commas. reflexivity.
Qed.

(** X13 on a click on the volume block written inside an array. *)
Lemma click_handler_body_brackets_and_commas_witness :
  let st := startup SIGRTMIN_linux alloc0 env_up in
  click_handler_body env_up loads_simple
    (js "[{'name':'BVolume','instance':'143','button':1}]" ++ [0x0a]) st
  = (Ok tt, st).
Proof.
  intros st.
  destruct (click_handler_body_brackets_and_commas env_up loads_simple st)
    as (H & _).
  apply H. reflexivity.
Defined.

(** X14.  [BVolume.out_once] depends on what [pamixer] prints and not on
    its exit status: with two fields, the first [true] or [false], it
    sets the text to the icon, the volume and a percent sign and renders;
    with another first field it raises [KeyError]; with fewer than two
    fields it raises [IndexError]; only a [pamixer] that cannot be
    started raises [OSError]. *)
Theorem BVolume_out_once_cases :
  forall env self st,
    let argv := [py "pamixer"; py "--get-mute"; py "--get-volume"] in
    BVolume_out_once env self st =
    match run env argv with
    | NotStarted => (Raise OSError, st)
    | Completed _ out =>
        match split out with
        | mute :: volume :: _ =>
            match dict_get mute BVolume_ICONS with
            | Some icon =>
                (Ok tt,
                 updated self (icon ++ py " " ++ volume ++ py "%") None
                   [Spawn argv] st)
            | None => (Raise KeyError, log (Spawn argv) st)
            end
        | _ => (Raise IndexError, log (Spawn argv) st)
        end
    end.
Proof.
  intros env self st argv. subst argv.
  unfold BVolume_out_once, sh_out, subprocess_run.
  destruct (run env _) as [|rc out]; [reflexivity|].
  unfold bind, modify, ret. cbn [andb].
  destruct (split out) as [|mute [|volume rest]]; try reflexivity.
  unfold index; cbn [nth_error]. unfold ret, lookup.
  destruct (dict_get mute BVolume_ICONS) as [icon|]; [|reflexivity].
  unfold ret, setitem, modify, print, builtin_print, modify, log, set_blocks,
    updated, render; simpl.
  rewrite <- app_assoc. reflexivity.
Qed.

(** X15.  [BDisk.out_once] needs [df] to exit with status 0: any other
    status raises [CalledProcessError] whatever was printed.  With status
    0 it reads the fourth field of the second line; fewer than two lines,
    or fewer than four fields on the second, raise [IndexError]. *)
Theorem BDisk_out_once_cases :
  forall env self st,
    let argv := [py "df"; py "-h"; py "/"] in
    BDisk_out_once env self st =
    match run env argv with
    | NotStarted => (Raise OSError, st)
    | Completed returncode out =>
        if (returncode =? 0)%Z then
          match splitlines out with
          | _ :: line :: _ =>
              match split line with
              | _ :: _ :: _ :: available :: _ =>
                  (Ok tt,
                   updated self ([0xf7c2] ++ py " " ++ available ++ py "iB") None
                     [Spawn argv] st)
              | _ => (Raise IndexError, log (Spawn argv) st)
              end
          | _ => (Raise IndexError, log (Spawn argv) st)
          end
        else (Raise CalledProcessError, log (Spawn argv) st)
    end.
Proof.
  intros env self st argv. subst argv.
  unfold BDisk_out_once, sh_out, subprocess_run.
  destruct (run env _) as [|rc out]; [reflexivity|].
  unfold bind, modify, ret. cbn [andb].
  destruct (rc =? 0)%Z; [|reflexivity]. cbn [negb].
  destruct (splitlines out) as [|l0 [|line rest]]; try reflexivity.
  unfold index; cbn [nth_error]. unfold ret.
  destruct (split line) as [|f0 [|f1 [|f2 [|available fs]]]];
    try reflexivity.
  unfold setitem, modify, print, builtin_print, modify, log, set_blocks,
    updated, render; simpl.
  rewrite <- app_assoc. reflexivity.
Qed.

Lemma bind_ok {A B : Type} (m : M A) (k : A -> M B) st a st1 :
  m st = (Ok a, st1) -> bind m k st = k a st1.
Proof. intros H. unfold bind. rewrite H. reflexivity. Qed.

Lemma bind_raise {A B : Type} (m : M A) (k : A -> M B) st e st1 :
  m st = (Raise e, st1) -> bind m k st = (Raise e, st1).
Proof. intros H. unfold bind. rewrite H. reflexivity. Qed.

Lemma sh_out_ok env argv out st :
  run env argv = Completed 0 out ->
  sh_out env argv true st = (Ok out, log (Spawn argv) st).
Proof.
  intros H. unfold sh_out, subprocess_run. rewrite H. reflexivity.
Qed.

Lemma index_ok {A : Type} (l : list A) (i : nat) (x : A) st :
  nth_error l i = Some x -> index l i st = (Ok x, st).
Proof. intros H. unfold index. rewrite H. reflexivity. Qed.

Lemma index_raise {A : Type} (l : list A) (i : nat) st :
  nth_error l i = None -> index l i st = (Raise IndexError, st).
Proof. intros H. unfold index. rewrite H. reflexivity. Qed.


(** X16.  [BNetwork.out_once] raises in two states of the network that
    are not failures of [nmcli].  When no connection is active, so that
    the list of active connections has fewer than four fields, it raises
    [IndexError]; when the connectivity is none of [none], [limited] and
    [full] (NetworkManager also reports [portal] and [unknown]), it
    raises [KeyError]. *)
Theorem BNetwork_out_once_offline :
  forall env self st general first connectivity rest active,
    run env [py "nmcli"; py "--terse"; py "general"] = Completed 0 general ->
    split_sep 0x3a general = first :: connectivity :: rest ->
    run env [py "nmcli"; py "--terse"; py "connection"; py "show"; py "--active"]
    = Completed 0 active ->
    ((List.length (split_sep 0x3a active) <= 3)%nat ->
     fst (BNetwork_out_once env self st) = Raise IndexError)
    /\ ((4 <= List.length (split_sep 0x3a active))%nat ->
        dict_get connectivity BNetwork_ICONS = None ->
        fst (BNetwork_out_once env self st) = Raise KeyError).
Proof.
  intros env self st general first connectivity rest active Hg Hsplit Ha.
  unfold BNetwork_out_once.
  erewrite bind_ok by (apply sh_out_ok; exact Hg).
  erewrite bind_ok by (apply index_ok; rewrite Hsplit; reflexivity).
  erewrite bind_ok by (apply sh_out_ok; exact Ha).
  cbv zeta.
  destruct (split_sep 0x3a active) as [|name [|f1 [|f2 [|field3 fs]]]] eqn:E;
    split; try (simpl; intros H; lia);
    try (intros _; erewrite bind_raise by (apply index_raise; reflexivity);
         reflexivity).
  intros _ Hicon.
  erewrite bind_ok by (apply index_ok; reflexivity).
  erewrite bind_ok by (apply index_ok; reflexivity).
  erewrite bind_raise; [reflexivity|].
  unfold lookup. rewrite Hicon. reflexivity.
Qed.

(** X16 on a machine that is offline. *)
Lemma BNetwork_out_once_offline_witness :
  fst (BNetwork_out_once env_offline (py "144")
         (startup SIGRTMIN_linux alloc0 env_up))
  = Raise IndexError.
Proof.
  destruct (BNetwork_out_once_offline env_offline (py "144")
              (startup SIGRTMIN_linux alloc0 env_up)
              (py "disconnected:none:enabled:enabled:enabled:enabled" ++ [0x0a])
              (py "disconnected") (py "none")
              [py "enabled"; py "enabled"; py "enabled"; py "enabled" ++ [0x0a]]
              []) as (H & _).
  - reflexivity.
  - reflexivity.
  - reflexivity.
  - apply H. simpl. lia.
Defined.

Lemma readlines_ended SIGRTMIN loads env i lines st co s :
  nth_error (tasks st) i = Some (co, s) -> s <> Running ->
  readlines SIGRTMIN loads env i lines st = st.
Proof.
  intros Hi Hs. unfold readlines.
  induction lines as [|line lines IH]; simpl; [reflexivity|].
  rewrite Hi. destruct co, s; try exact IH; contradiction.
Qed.

(** X17.  At the end of its input the router returns: the empty string
    that [readline] gives ends [click_handler] without an error, the
    task is finished, and nothing else changes: no block, no output, no
    other task.  Lines that arrive after it are not read. *)
Theorem click_handler_end_of_input :
  forall SIGRTMIN loads env i lines st,
    nth_error (tasks st) i = Some (click_handler_task, Running) ->
    let st' := readlines SIGRTMIN loads env i ([] :: lines) st in
    nth_error (tasks st') i = Some (click_handler_task, Finished)
    /\ (forall j, j <> i -> nth_error (tasks st') j = nth_error (tasks st) j)
    /\ blocks st' = blocks st
    /\ trace st' = trace st
    /\ signals st' = signals st.
Proof.
  intros SIGRTMIN loads env i lines st Hi st'.
  destruct (end_task_spec i Finished _ _ _ Hi) as (Ht & Hother & Hb & Htr & Hs).
  assert (st' = end_task i Finished st) as ->.
  { subst st'. unfold readlines. simpl. rewrite Hi.
    apply (readlines_ended SIGRTMIN loads env i lines _ _ _ Ht). discriminate. }
  repeat split; assumption.
Qed.

(** X17 on the router of a process that has just started. *)
Lemma click_handler_end_of_input_witness :
  nth_error
    (tasks (readlines SIGRTMIN_linux loads_simple env_up 0 [[]; volume_click]
              (startup SIGRTMIN_linux alloc0 env_up))) 0
  = Some (click_handler_task, Finished).
Proof.
  destruct (click_handler_end_of_input SIGRTMIN_linux loads_simple env_up 0%nat
              [volume_click] (startup SIGRTMIN_linux alloc0 env_up))
    as (H & _).
  - vm_compute. reflexivity.
  - exact H.
Defined.

Lemma forallb_rev_eq {A : Type} (f : A -> bool) (l : list A) :
  forallb f (rev l) = forallb f l.
Proof.
  induction l as [|x l IH]; simpl; [reflexivity|].
  rewrite forallb_app, IH. simpl. rewrite andb_true_r. apply andb_comm.
Qed.

Lemma split_from_fields (s cur : pystr) :
  forallb (fun c => negb (isspace c)) cur = true ->
  Forall (fun f => f <> [] /\ forallb (fun c => negb (isspace c)) f = true)
    (split_from cur s).
Proof.
  revert cur. induction s as [|c s IH]; intros cur Hcur; simpl.
  - destruct cur as [|x cur]; constructor; [|constructor].
    split.
    + intros E. apply (f_equal (@List.length N)) in E.
      rewrite length_rev in E. discriminate E.
    + rewrite forallb_rev_eq. exact Hcur.
  - destruct (isspace c) eqn:Hc.
    + destruct cur as [|x cur]; [apply IH; reflexivity|].
      constructor; [|apply IH; reflexivity].
      split.
      * intros E. apply (f_equal (@List.length N)) in E.
        rewrite length_rev in E. discriminate E.
      * rewrite forallb_rev_eq. exact Hcur.
    + apply IH. simpl. rewrite Hc. exact Hcur.
Qed.

(** Every field of [str.split()] is a word: not empty and free of white
    space. *)
Lemma split_fields_are_words (s : pystr) :
  Forall (fun f => f <> [] /\ forallb (fun c => negb (isspace c)) f = true)
    (split s).
Proof. apply split_from_fields. reflexivity. Qed.

(** X18.  [BCPU.out_once] shows the second field of [/proc/loadavg] and
    runs no command.  A file that cannot be read raises [OSError] and a
    file with fewer than two fields raises [IndexError], either way with
    the state untouched; otherwise the text is the icon, a space and the
    field, which is a word: not empty and free of white space, so no
    blank or line break of the file reaches the text. *)
Theorem BCPU_out_once_shows_word :
  forall env self st,
    BCPU_out_once env self st =
    match read_text env (py "/proc/loadavg") with
    | None => (Raise OSError, st)
    | Some text =>
        match split text with
        | _ :: load :: _ =>
            (Ok tt, updated self ([0xf2db] ++ py " " ++ load) None [] st)
        | _ => (Raise IndexError, st)
        end
    end
    /\ forall st',
         BCPU_out_once env self st = (Ok tt, st') ->
         exists load,
           load <> []
           /\ forallb (fun c => negb (isspace c)) load = true
           /\ st' = updated self ([0xf2db] ++ py " " ++ load) None [] st.
Proof.
  intros env self st.
  assert (BCPU_out_once env self st =
          match read_text env (py "/proc/loadavg") with
          | None => (Raise OSError, st)
          | Some text =>
              match split text with
              | _ :: load :: _ =>
                  (Ok tt, updated self ([0xf2db] ++ py " " ++ load) None [] st)
              | _ => (Raise IndexError, st)
              end
          end) as Hcases.
  { unfold BCPU_out_once, Path_read_text.
    destruct (read_text env _) as [text|]; [|reflexivity].
    unfold bind at 1. unfold ret at 1.
    destruct (split text) as [|f0 [|load fs]]; reflexivity. }
  split; [exact Hcases|].
  intros st' H. rewrite Hcases in H.
  destruct (read_text env _) as [text|]; [|discriminate H].
  pose proof (split_fields_are_words text) as Hwords.
  destruct (split text) as [|f0 [|load fs]]; try discriminate H.
  inversion Hwords as [|? ? _ Hrest]; subst.
  inversion Hrest as [|? ? (Hne & Hword) _]; subst.
  injection H as <-. exists load. repeat split; assumption.
Qed.

(** X18 on the load average of a machine whose sources answer. *)
Lemma BCPU_out_once_shows_word_witness :
  exists load,
    load <> []
    /\ snd (BCPU_out_once env_up (py "140") initial)
       = updated (py "140") ([0xf2db] ++ py " " ++ load) None [] initial.
Proof.
  destruct (BCPU_out_once_shows_word env_up (py "140") initial) as (_ & H).
  destruct (H (snd (BCPU_out_once env_up (py "140") initial)))
    as (load & Hne & _ & Hst).
  - reflexivity.
  - exists load. split; [exact Hne|exact Hst].
Defined.

(** X19.  When the command of the button, if it has one, can be started
    and [pamixer] prints a mute flag [true] or [false] and a volume, a
    click on a registered volume block runs from the line to the render
    in one turn of the loop: the router decodes the line, the block runs
    the command, reads the mixer and sets its text, one render line is
    written, and the router is left running, ready for the next line. *)
Theorem volume_click_end_to_end :
  forall SIGRTMIN loads env st i line d k b button rc out mute volume rest icon,
    nth_error (tasks st) i = Some (click_handler_task, Running) ->
    line <> [] ->
    startswith (py "[") line = false ->
    loads (lstrip (py ",") line) = Some (VDict d) ->
    dict_get (py "instance") d = Some (VStr k) ->
    dict_get k (blocks st) = Some b ->
    cls b = BVolume ->
    dict_get (py "button") d = Some button ->
    (forall argv, BVolume_command button = Some argv ->
                  exists rc' out', run env argv = Completed rc' out') ->
    run env [py "pamixer"; py "--get-mute"; py "--get-volume"] = Completed rc out ->
    split out = mute :: volume :: rest ->
    dict_get mute BVolume_ICONS = Some icon ->
    step SIGRTMIN loads env (Readline i line) st
    = updated k (icon ++ py " " ++ volume ++ py "%") None
        (match BVolume_command button with
         | Some argv => [Spawn argv]
         | None => []
         end
         ++ [Spawn [py "pamixer"; py "--get-mute"; py "--get-volume"]]) st.
Proof.
  intros SIGRTMIN loads env st i line d k b button rc out mute volume rest icon
    Hi Hline Hopen Hloads Hinst Hblock Hcls Hbutton Hcmd Hrun Hsplit Hicon.
  unfold step. rewrite Hi.
  destruct line as [|ch line]; [contradiction|].
  unfold activate, click_handler_body. rewrite Hopen.
  erewrite bind_ok by (unfold json_loads; rewrite Hloads; reflexivity).
  erewrite bind_ok by (unfold getitem, lookup; rewrite Hinst; reflexivity).
  erewrite bind_ok
    by (unfold blocks_getitem, bind, lookup; rewrite Hblock; reflexivity).
  cbn [fst snd]. rewrite Hcls. cbn [on_click].
  assert (forall argv s,
            BVolume_command button = Some argv ->
            (subprocess_run env argv false ;; ret tt) s
            = (Ok tt, log (Spawn argv) s)) as Hspawn.
  { intros argv s Hargv. destruct (Hcmd argv Hargv) as (rc' & out' & Hr).
    unfold subprocess_run, bind, modify, ret. rewrite Hr. reflexivity. }
  assert (forall acts,
            BVolume_out_once env k (log_all acts st)
            = (Ok tt,
               updated k (icon ++ py " " ++ volume ++ py "%") None
                 (acts ++ [Spawn [py "pamixer"; py "--get-mute";
                                  py "--get-volume"]]) st)) as Hupdate.
  { intros acts.
    rewrite (BVolume_out_once_ok env k _ _ _ _ _ _ _ Hrun Hsplit Hicon).
    unfold updated, log_all; simpl. rewrite <- !app_assoc. reflexivity. }
  unfold BVolume_on_click, BVolume_command in *.
  unfold getitem, lookup. rewrite Hbutton.
  repeat match goal with
         | |- context [bind (ret ?a) ?k] =>
             change (bind (ret a) k) with (fun s : State => k a s); cbv beta
         end.
  destruct (eq_int button 1).
  { erewrite bind_ok by (apply Hspawn; reflexivity).
    match goal with
    | |- context [log (Spawn ?argv) st] =>
        change (log (Spawn argv) st) with (log_all [Spawn argv] st)
    end.
    rewrite Hupdate. reflexivity. }
  destruct (eq_int button 3).
  { erewrite bind_ok by (apply Hspawn; reflexivity).
    match goal with
    | |- context [log (Spawn ?argv) st] =>
        change (log (Spawn argv) st) with (log_all [Spawn argv] st)
    end.
    rewrite Hupdate. reflexivity. }
  destruct (eq_int button 4).
  { erewrite bind_ok by (apply Hspawn; reflexivity).
    match goal with
    | |- context [log (Spawn ?argv) st] =>
        change (log (Spawn argv) st) with (log_all [Spawn argv] st)
    end.
    rewrite Hupdate. reflexivity. }
  destruct (eq_int button 5).
  { erewrite bind_ok by (apply Hspawn; reflexivity).
    match goal with
    | |- context [log (Spawn ?argv) st] =>
        change (log (Spawn argv) st) with (log_all [Spawn argv] st)
    end.
    rewrite Hupdate. reflexivity. }
  erewrite bind_ok by reflexivity.
  rewrite <- (log_all_nil st) at 1. rewrite (Hupdate []). reflexivity.
Qed.

(** X19 on the click of the specification: the first button on the
    volume block toggles the mute. *)
Lemma volume_click_end_to_end_witness :
  let st := startup SIGRTMIN_linux alloc0 env_up in
  step SIGRTMIN_linux loads_simple env_up (Readline 0 volume_click) st
  = updated (py "143") ([0xf028] ++ py " 45%") None
      [Spawn [py "pamixer"; py "--toggle-mute"];
       Spawn [py "pamixer"; py "--get-mute"; py "--get-volume"]] st.
Proof.
  intros st.
  apply (volume_click_end_to_end SIGRTMIN_linux loads_simple env_up st 0%nat
           volume_click
           [(py "name", VStr (py "BVolume")); (py "instance", VStr (py "143"));
            (py "button", VInt 1)]
           (py "143")
           (touch ([0xf028] ++ py " 45%") None (Block_init BVolume [] 143))
           (VInt 1) 0%Z (py "false 45" ++ [0x0a]) (py "false") (py "45") []
           [0xf028]).
  - vm_compute. reflexivity.
  - discriminate.
  - reflexivity.
  - vm_compute. reflexivity.
  - reflexivity.
  - vm_compute. reflexivity.
  - reflexivity.
  - reflexivity.
  - intros argv H. injection H as <-. exists 0%Z, []. reflexivity.
  - reflexivity.
  - reflexivity.
  - reflexivity.
Defined.
